(** * Taxi destination prediction: configuration, recurrent model and streams

    A shallow embedding of
    - [config/joint_simple_mlp_tgtcls_111_cswdtx_bigger.py] (module [Config]),
    - [model/rnn.py], class [Model] (module [Rnn]) and class [Stream]
      (module [Streams]),
    with the properties of their wiring: layer dimensions, the target
    classes, the order of the stream transformers and the sources they
    carry, and the shape of the cost.

    Python integers that count things (sizes, dimensions) are [nat].
    Tensor entries are elements of an arbitrary field: the rounding of
    floating-point arithmetic is not modelled. *)

From Stdlib Require Import String Ascii.
From HB Require Import structures.
From mathcomp Require Import boot algebra.

Set Implicit Arguments.
Unset Strict Implicit.
Unset Printing Implicit Defensive.

(** Python strings are compared with [==] and searched with [in]. *)
HB.instance Definition _ := hasDecEq.Build string String.eqb_spec.

(** ** Python built-ins used by the sources *)

Module Py.

(** [l[-k]]: the k-th element from the end; IndexError ([None]) when the
    list has fewer than [k] elements. *)
Definition getitem_neg {T : Type} (l : seq T) (k : nat) : option T :=
  if (0 < k) && (k <= size l) then ohead (drop (size l - k) l) else None.

(** [l[i]] for [i >= 0]; IndexError ([None]) past the end. *)
Definition getitem {T : Type} (l : seq T) (i : nat) : option T :=
  ohead (drop i l).

(** [sum(xs)]: a left fold from 0. *)
Definition sum (xs : seq nat) : nat := foldl addn 0 xs.

(** [for i in range(n): state = body(state)], where the body may raise. *)
Fixpoint for_range {S : Type} (n : nat) (body : S -> option S) (s : S)
  : option S :=
  if n is n'.+1 then obind (for_range n' body) (body s) else Some s.

(** [s.endswith(suffix)]. *)
Definition endswith (s suffix : string) : bool :=
  let n := String.length s in
  let k := String.length suffix in
  (k <= n) && (substring (n - k) k s == suffix).

End Py.

(** ** config/joint_simple_mlp_tgtcls_111_cswdtx_bigger.py *)

Module Config.

Definition n_begin_end_pts : nat := 10.
Definition n_end_pts : nat := 10.
Definition n_valid : nat := 1000.

(** The body of the loop that extends [time_tgtcls]:
    [time_tgtcls.append(time_tgtcls[-1] + time_tgtcls[-2])]. *)
Definition append_next (l : seq nat) : option (seq nat) :=
  if Py.getitem_neg l 1 is Some a then
    if Py.getitem_neg l 2 is Some b then Some (rcons l (a + b)) else None
  else None.

(** The run of the two statements that build [time_tgtcls]. *)
Definition time_tgtcls_run : option (seq nat) :=
  Py.for_range 21 append_next [:: 1; 2].

Definition time_tgtcls : seq nat := odflt [::] time_tgtcls_run.

Section Data.

(** [data.origin_call_size] and [data.stands_size] come from the [data]
    package, which is not part of these sources. *)
Variables (origin_call_size stands_size : nat).

Definition dim_embeddings : seq (string * nat * nat) :=
  [:: ("origin_call"%string, origin_call_size + 1, 15);
      ("origin_stand"%string, stands_size + 1, 10);
      ("week_of_year"%string, 52, 10);
      ("day_of_week"%string, 7, 10);
      ("qhour_of_day"%string, 24 * 4, 10);
      ("day_type"%string, 3, 10);
      ("taxi_id"%string, 448, 10) ].

Definition dim_input : nat :=
  n_begin_end_pts * 2 * 2 + Py.sum [seq x.2 | x <- dim_embeddings].

End Data.

Definition dim_hidden : seq nat := [:: 1000].
Definition dim_hidden_dest : seq nat := [:: 400].
Definition dim_hidden_time : seq nat := [:: 400].
Definition dim_output_time : nat := size time_tgtcls.
Definition time_cost_factor : nat := 4.
Definition batch_size : nat := 200.
Definition valid_set : string := "cuts/test_times_0".

End Config.

(** ** Tensors

    A tensor is the nested list of its entries, outermost axis first: a
    vector is [seq F], a matrix the list of its rows, a 3-tensor a list of
    matrices.  The operations below are the Theano operations the model
    applies, on this representation.  A matrix without rows carries no
    width here: an empty batch is [[::]] whatever its number of steps. *)

Module Tensor.

Import GRing.Theory.
Local Open Scope ring_scope.

Section Ops.

Variable F : fieldType.

Definition vector := seq F.
Definition matrix := seq vector.
Definition tensor3 := seq matrix.

(** [m.T] *)
Definition transpose (m : matrix) : matrix :=
  [seq [seq nth 0 r j | r <- m] | j <- iota 0 (size (head [::] m))].

(** [tensor.shape_padright(v)]: a vector of length B becomes B x 1. *)
Definition shape_padright (v : vector) : matrix := [seq [:: x] | x <- v].

(** [tensor.concatenate(ms, axis=1)]: row [i] of the result is the
    concatenation of the rows [i] of the matrices. *)
Definition concatenate_axis1 (ms : seq matrix) : matrix :=
  [seq flatten [seq nth [::] m i | m <- ms]
  | i <- iota 0 (size (head [::] ms))].

(** [t.repeat(n, axis=0)]: every entry along the first axis is repeated
    [n] times in place. *)
Definition repeat_axis0 {T : Type} (n : nat) (t : seq T) : seq T :=
  flatten [seq nseq n x | x <- t].

(** [m.repeat(n, axis=1)] *)
Definition repeat_axis1 (n : nat) (m : matrix) : matrix :=
  [seq repeat_axis0 n r | r <- m].

(** [v.dimshuffle('x', 0, 'x')]: a vector of length B becomes 1 x B x 1. *)
Definition dimshuffle_x0x (v : vector) : tensor3 := [:: [seq [:: x] | x <- v]].

(** [tensor.concatenate((a, b), axis=2)] *)
Definition concatenate_axis2 (a b : tensor3) : tensor3 :=
  [seq [seq r.1 ++ r.2 | r <- zip m.1 m.2] | m <- zip a b].

(** [t.reshape((-1, 2))]: the entries in row-major order, cut in rows of 2. *)
Definition reshape_rows2 (t : tensor3) : matrix :=
  let flat := flatten (flatten t) in
  reshape (nseq (size flat %/ 2) 2) flat.

(** [v.sum()] and, on [m.flatten()], [m.sum()]. *)
Definition sum (v : vector) : F := foldr +%R 0 v.

(** Elementwise product of two vectors of the same length. *)
Definition mul (a b : vector) : vector := [seq x.1 * x.2 | x <- zip a b].

(** [m * v] and [m + v] with the 2-vector [v] broadcast over the rows of a
    matrix with 2 columns. *)
Definition broadcast (op : F -> F -> F) (m : matrix) (v : F * F) : matrix :=
  [seq [seq op x.1 x.2 | x <- zip r [:: v.1; v.2]] | r <- m].

(** [x / y] on scalars.  Nothing guards the divisor: where it is zero the
    quotient is not a number, which is [None] here. *)
Definition div (x y : F) : option F :=
  if y == 0 then None else Some (x / y).

End Ops.

End Tensor.

(** ** model/rnn.py: the configuration it reads and the bricks it builds *)

Module Rnn.

Import GRing.Theory.
Local Open Scope ring_scope.

(** The configuration module passed to [Model] and [Stream]; the fields
    are the attributes [model/rnn.py] reads (the initialisation schemes
    apart, which only reach the training framework). *)
Record embedder_config := EmbedderConfig {
  dim_embeddings : seq (string * nat * nat)
}.

Record config := Config {
  pre_embedder : embedder_config;
  post_embedder : embedder_config;
  hidden_state_dim : nat;
  batch_size : nat;
  batch_sort_size : nat;
  valid_set : string
}.

(** The bricks, as their constructors' arguments. *)
Inductive activation := Tanh.

Record MLP := MkMLP {
  MLP_activations : seq activation;
  MLP_dims : seq nat;
  MLP_name : string
}.

Record LSTM := MkLSTM {
  LSTM_dim : nat;
  LSTM_name : string
}.

Record ContextEmbedder := MkContextEmbedder {
  CE_config : embedder_config;
  CE_name : string
}.

Record Model := MkModel {
  model_config : config;
  pre_context_embedder : ContextEmbedder;
  post_context_embedder : ContextEmbedder;
  input_to_rec : MLP;
  rec : LSTM;
  rec_to_output : MLP;
  sequences : seq string
}.

(** [Model.__init__] *)
Definition Model_init (cfg : config) : Model :=
  let in1 := (2 + Py.sum [seq x.2 | x <- dim_embeddings (pre_embedder cfg)])%N in
  let in2 := (hidden_state_dim cfg
              + Py.sum [seq x.2 | x <- dim_embeddings (post_embedder cfg)])%N in
  {| model_config := cfg;
     pre_context_embedder :=
       MkContextEmbedder (pre_embedder cfg) "pre_context_embedder";
     post_context_embedder :=
       MkContextEmbedder (post_embedder cfg) "post_context_embedder";
     input_to_rec := MkMLP [:: Tanh] [:: in1; hidden_state_dim cfg] "input_to_rec";
     rec := MkLSTM (hidden_state_dim cfg) "recurrent";
     rec_to_output := MkMLP [:: Tanh] [:: in2; 2] "rec_to_output";
     sequences := [:: "latitude"; "latitude_mask"; "longitude"]%string |}.

Section Apply.

Variable F : fieldType.

Notation vector := (Tensor.vector F).
Notation matrix := (Tensor.matrix F).
Notation tensor3 := (Tensor.tensor3 F).

(** The keyword arguments (the context variables, and for [cost] the
    destination) and the float vectors among them. *)
Variable kwargs : Type.
Variable kwargs_get : kwargs -> string -> vector.

(** What the bricks compute is the training framework's business, with
    weights that training sets.  Each brick works on the examples of a
    batch one by one:
    - an MLP maps a row to a row;
    - a context embedder gives one matrix per embedded variable;
    - an LSTM maps the input, state and cell rows of an example and its
      mask entry to the next state and cell rows. *)
Variable MLP_apply : MLP -> vector -> vector.
Variable ContextEmbedder_apply : ContextEmbedder -> kwargs -> seq matrix.
Variable LSTM_apply : LSTM -> vector -> vector -> vector -> F -> vector * vector.
Variable LSTM_initial_state : LSTM -> string -> nat -> matrix.

(** The equirectangular distance of two points, which [error.erdist]
    computes row by row. *)
Variable erdist_point : vector -> vector -> F.

(** [data.train_gps_mean] and [data.train_gps_std]: the latitude and
    longitude components of two constant arrays of the [data] package. *)
Variables train_gps_mean train_gps_std : F * F.

Definition MLP_apply_batch (mlp : MLP) (m : matrix) : matrix :=
  [seq MLP_apply mlp r | r <- m].

Definition LSTM_apply_batch (lstm : LSTM) (inputs states cells : matrix)
    (mask : vector) : matrix * matrix :=
  let rows := [seq LSTM_apply lstm x.1.1.1 x.1.1.2 x.1.2 x.2
              | x <- zip (zip (zip inputs states) cells) mask] in
  (unzip1 rows, unzip2 rows).

(** Modelled from the spec: [error.erdist(a, b)] of the [error] module,
    which is not part of these sources: the distance of each row of [a]
    to the same row of [b]. *)
Definition erdist (a b : matrix) : vector :=
  [seq erdist_point x.1 x.2 | x <- zip a b].

(** The two affine maps of [predict_all]: the coordinates enter the
    network as [(x - mean) / std], and its output leaves it as
    [rto * train_gps_std + train_gps_mean]. *)
Definition normalize (mean std : F) (v : vector) : vector :=
  [seq (x - mean) / std | x <- v].

Definition denormalize (rto : matrix) : matrix :=
  Tensor.broadcast +%R (Tensor.broadcast *%R rto train_gps_std) train_gps_mean.

Variable self : Model.

(** [Model.initial_state] *)
Definition initial_state (state_name : string) (batch : nat) : matrix :=
  LSTM_initial_state (rec self) state_name batch.

(** The body of [Model.predict_all]: one time step, on a batch. *)
Definition predict_all_step (latitude longitude latitude_mask : vector)
    (kw : kwargs) (states cells : matrix) : matrix * matrix * matrix :=
  let latitude := normalize train_gps_mean.1 train_gps_std.1 latitude in
  let longitude := normalize train_gps_mean.2 train_gps_std.2 longitude in
  let pre_emb := ContextEmbedder_apply (pre_context_embedder self) kw in
  let latitude := Tensor.shape_padright latitude in
  let longitude := Tensor.shape_padright longitude in
  let itr := MLP_apply_batch (input_to_rec self)
               (Tensor.concatenate_axis1 (pre_emb ++ [:: latitude; longitude])) in
  let itr := Tensor.repeat_axis1 4 itr in
  let: (next_states, next_cells) :=
    LSTM_apply_batch (rec self) itr states cells latitude_mask in
  let post_emb := ContextEmbedder_apply (post_context_embedder self) kw in
  let rto := MLP_apply_batch (rec_to_output self)
               (Tensor.concatenate_axis1 (post_emb ++ [:: next_states])) in
  let rto := denormalize rto in
  (rto, next_states, next_cells).

(** The [@recurrent] wrapper of [predict_all]: the step runs over the
    first axis of the sequences, threading the states; the outputs of the
    steps are stacked along the first axis.  The function is total: the
    scan of the framework raises on sequences without a step and on
    sequences of unequal lengths, where this one returns the steps it
    can pair. *)
Fixpoint recurrent (steps : seq (vector * vector * vector)) (kw : kwargs)
    (states cells : matrix) : seq (matrix * matrix * matrix) :=
  if steps is x :: steps' then
    let out := predict_all_step x.1.1 x.1.2 x.2 kw states cells in
    out :: recurrent steps' kw out.1.2 out.2
  else [::].

(** [Model.predict_all] on time-major sequences; the states start from
    [initial_state] at the batch size of the sequences. *)
Definition predict_all (latitude longitude latitude_mask : matrix)
    (kw : kwargs) : tensor3 * tensor3 * tensor3 :=
  let batch := size (head [::] latitude) in
  let outs := recurrent (zip (zip latitude longitude) latitude_mask) kw
                (initial_state "states" batch) (initial_state "cells" batch) in
  ([seq o.1.1 | o <- outs], [seq o.1.2 | o <- outs], [seq o.2 | o <- outs]).

(** [Model.predict]; [res[-1]] raises on an empty time axis. *)
Definition predict (latitude longitude latitude_mask : matrix)
    (kw : kwargs) : option matrix :=
  let latitude := Tensor.transpose latitude in
  let longitude := Tensor.transpose longitude in
  let latitude_mask := Tensor.transpose latitude_mask in
  let res := (predict_all latitude longitude latitude_mask kw).1.1 in
  Py.getitem_neg res 1.

(** [Model.cost] *)
Definition cost (latitude longitude latitude_mask : matrix)
    (kw : kwargs) : option F :=
  let latitude := Tensor.transpose latitude in
  let longitude := Tensor.transpose longitude in
  let latitude_mask := Tensor.transpose latitude_mask in
  let res := (predict_all latitude longitude latitude_mask kw).1.1 in
  let target :=
    Tensor.concatenate_axis2
      (Tensor.dimshuffle_x0x (kwargs_get kw "destination_latitude"))
      (Tensor.dimshuffle_x0x (kwargs_get kw "destination_longitude")) in
  let target := Tensor.repeat_axis0 (size latitude) target in
  let ce := erdist (Tensor.reshape_rows2 target) (Tensor.reshape_rows2 res) in
  let ce := Tensor.mul ce (flatten latitude_mask) in
  Tensor.div (Tensor.sum ce) (Tensor.sum (flatten latitude_mask)).

End Apply.

End Rnn.

(** ** model/rnn.py, class Stream: data sets, transformers and pipelines *)

Module Obj.

(** [TaxiDataset(which_set, filename, sources=...)]: the arguments that
    name the data; [None] stands for an argument left at its default. *)
Record TaxiDataset := MkTaxiDataset {
  which_set : string;
  filename : option string;
  sources_kw : option (seq string)
}.

Inductive iteration_scheme :=
  | ShuffledExampleScheme (examples : nat)
  | ConstantScheme (batch_size : nat).

(** A data stream is the object graph the constructors build: a data set
    read under a scheme, wrapped by transformers.  [value] is the type of
    the entries used for excluding trips (trip ids). *)
Inductive stream (value : Type) :=
  | DataStream (dataset : TaxiDataset) (scheme : iteration_scheme)
  | TaxiStream (which_set : string) (filename : option string)
  | TaxiExcludeTrips (s : stream value) (exclude_list : seq value)
  | TaxiExcludeEmptyTrips (s : stream value)
  | taxi_add_datetime (s : stream value)
  | add_destination (s : stream value)
  | taxi_remove_test_only_clients (s : stream value)
  | Select (s : stream value) (sources : seq string)
  | balanced_batch (s : stream value) (key : string)
      (batch_size batch_sort_size : nat)
  | Batch (s : stream value) (scheme : iteration_scheme)
  | Padding (s : stream value) (mask_sources : seq string).

Arguments DataStream {value}.
Arguments TaxiStream {value}.

End Obj.

Module Streams.

Local Open Scope string_scope.

Notation "'let?' x ':=' e 'in' k" := (obind (fun x => k) e)
  (at level 200, x name, e at level 100, k at level 200, only parsing).

Section Data.

Variable value : Type.

(** The stored data: the sources a file holds for a set, in the file's
    order, the number of examples of the set, and the column of each
    source. *)
Variable file_sources : string -> option string -> seq string.
Variable examples : string -> option string -> nat.
Variable column : string -> option string -> string -> seq value.

(** Modelled from the spec: the constructor call
    [TaxiDataset(which_set, filename, sources=...)].  [TaxiDataset] of
    [data/hdf5.py], which is not part of these sources, is a data set of
    the framework: the constructor raises ([None]) when the [sources]
    argument names a source that the file does not hold for the set. *)
Definition TaxiDataset (which_set : string) (filename : option string)
    (sources_kw : option (seq string)) : option Obj.TaxiDataset :=
  let dataset := Obj.MkTaxiDataset which_set filename sources_kw in
  if sources_kw is Some ss then
    if all (fun v => v \in file_sources which_set filename) ss
    then Some dataset else None
  else Some dataset.

(** [dataset.provides_sources]: the [sources] argument restricts them. *)
Definition provides_sources (d : Obj.TaxiDataset) : seq string :=
  if Obj.sources_kw d is Some ss then ss
  else file_sources (Obj.which_set d) (Obj.filename d).

(** [dataset.num_examples] *)
Definition num_examples (d : Obj.TaxiDataset) : nat :=
  examples (Obj.which_set d) (Obj.filename d).

(** [dataset.get_data(None, slice(lo, hi))]: one array per source. *)
Definition get_data (d : Obj.TaxiDataset) (lo hi : nat) : seq (seq value) :=
  [seq take (hi - lo) (drop lo (column (Obj.which_set d) (Obj.filename d) s))
  | s <- provides_sources d].

Notation stream := (Obj.stream value).

(** Modelled from the spec: the sources of the transformers of
    [data/transformers.py] and of [TaxiStream] of [data/hdf5.py], which
    are not part of these sources.  [TaxiStream] reads a [TaxiDataset];
    the two exclusions and the removal of test-only clients keep the
    sources; the datetime and destination additions append their fields;
    balanced batching keeps the sources; [Select] carries the sources it
    was given.  [DataStream], [Batch] and [Padding] are the framework's:
    the first two carry the sources of what they wrap, and [Padding] adds,
    after each source listed in [mask_sources], the source's mask.
    This is [stream.sources]. *)
Fixpoint sources (s : stream) : seq string :=
  match s with
  | Obj.DataStream d _ => provides_sources d
  | Obj.TaxiStream w f => provides_sources (Obj.MkTaxiDataset w f None)
  | Obj.TaxiExcludeTrips s _ => sources s
  | Obj.TaxiExcludeEmptyTrips s => sources s
  | Obj.taxi_add_datetime s =>
      sources s ++ [:: "week_of_year"; "day_of_week"; "qhour_of_day"]
  | Obj.add_destination s =>
      sources s ++ [:: "destination_latitude"; "destination_longitude"]
  | Obj.taxi_remove_test_only_clients s => sources s
  | Obj.Select _ srcs => srcs
  | Obj.balanced_batch s _ _ _ => sources s
  | Obj.Batch s _ => sources s
  | Obj.Padding s mask_sources =>
      flatten [seq if x \in mask_sources then [:: x; x ++ "_mask"] else [:: x]
              | x <- sources s]
  end.

(** Modelled from the spec: [transformers.Select(stream, sources)] of
    [data/transformers.py], which is not part of these sources.  It is
    the selection of exactly the given sources from the wrapped stream; a
    name that the wrapped stream does not carry cannot be selected, and
    the constructor raises ([None]). *)
Definition Select (s : stream) (srcs : seq string) : option stream :=
  if all (fun v => v \in sources s) srcs then Some (Obj.Select s srcs)
  else None.

Variable config : Rnn.config.

(** [Stream.train]; the validation data set is opened for its trip ids
    only, and the call raises when the file does not hold them. *)
Definition train (req_vars : seq string) : option stream :=
  let? valid := TaxiDataset (Rnn.valid_set config) (Some "valid.hdf5")
                  (Some [:: "trip_id"]) in
  let? valid_trips_ids :=
    Py.getitem (get_data valid 0 (num_examples valid)) 0 in
  let? stream := TaxiDataset "train" None None in
  let stream :=
    Obj.DataStream stream (Obj.ShuffledExampleScheme (num_examples stream)) in
  let stream := Obj.TaxiExcludeTrips stream valid_trips_ids in
  let stream := Obj.TaxiExcludeEmptyTrips stream in
  let stream := Obj.taxi_add_datetime stream in
  let stream := Obj.add_destination stream in
  let? stream :=
    Select stream [seq v <- req_vars | ~~ Py.endswith v "_mask"] in
  let stream := Obj.balanced_batch stream "latitude" (Rnn.batch_size config)
                  (Rnn.batch_sort_size config) in
  let stream := Obj.Padding stream [:: "latitude"; "longitude"] in
  let? stream := Select stream req_vars in
  Some stream.

(** [Stream.valid] *)
Definition valid (req_vars : seq string) : option stream :=
  let stream := Obj.TaxiStream (Rnn.valid_set config) (Some "valid.hdf5") in
  let stream := Obj.taxi_add_datetime stream in
  let stream := Obj.add_destination stream in
  let? stream :=
    Select stream [seq v <- req_vars | ~~ Py.endswith v "_mask"] in
  let stream := Obj.Batch stream (Obj.ConstantScheme 1000) in
  let stream := Obj.Padding stream [:: "latitude"; "longitude"] in
  let? stream := Select stream req_vars in
  Some stream.

(** [Stream.test] *)
Definition test (req_vars : seq string) : option stream :=
  let stream := Obj.TaxiStream "test" None in
  let stream := Obj.taxi_add_datetime stream in
  let stream := Obj.taxi_remove_test_only_clients stream in
  let? stream :=
    Select stream [seq v <- req_vars | ~~ Py.endswith v "_mask"] in
  let stream := Obj.Batch stream (Obj.ConstantScheme 1) in
  let stream := Obj.Padding stream [:: "latitude"; "longitude"] in
  let? stream := Select stream req_vars in
  Some stream.

End Data.

End Streams.

(** ** model/rnn.py: the names of the inputs *)

Module Inputs.

Local Open Scope string_scope.

Section Names.

(** [ContextEmbedder.inputs]: the names of the variables an embedder
    reads; the class is not part of these sources. *)
Variable ContextEmbedder_inputs : Rnn.ContextEmbedder -> seq string.

Variable self : Rnn.Model.

(** [self.context], as [Model.__init__] sets it. *)
Definition context : seq string :=
  ContextEmbedder_inputs (Rnn.pre_context_embedder self)
  ++ ContextEmbedder_inputs (Rnn.post_context_embedder self).

(** [self.inputs], as [Model.__init__] sets it. *)
Definition inputs : seq string := Rnn.sequences self ++ context.

(** [Model.predict_all_inputs] *)
Definition predict_all_inputs : seq string := context.

(** [Model.predict_inputs] *)
Definition predict_inputs : seq string := inputs.

(** [Model.cost_inputs] *)
Definition cost_inputs : seq string :=
  inputs ++ [:: "destination_latitude"; "destination_longitude"].

End Names.

(** The Theano variables of [Stream.inputs]: [bvector], [wvector] and
    [ivector] are vectors of 8, 16 and 32 bit integers, [vector] and
    [matrix] are of the float type. *)
Inductive dtype := int8 | int16 | int32 | floatX.

Inductive tensor_type :=
  | vector_of (d : dtype)
  | matrix_of (d : dtype).

(** [Stream.inputs]: the dictionary, as the list of its items in the
    order of the source. *)
Definition Stream_inputs : seq (string * tensor_type) :=
  [:: ("call_type", vector_of int8);
      ("origin_call", vector_of int32);
      ("origin_stand", vector_of int8);
      ("taxi_id", vector_of int16);
      ("timestamp", vector_of int32);
      ("day_type", vector_of int8);
      ("missing_data", vector_of int8);
      ("latitude", matrix_of floatX);
      ("longitude", matrix_of floatX);
      ("latitude_mask", matrix_of floatX);
      ("longitude_mask", matrix_of floatX);
      ("week_of_year", vector_of int8);
      ("day_of_week", vector_of int8);
      ("qhour_of_day", vector_of int8);
      ("destination_latitude", vector_of floatX);
      ("destination_longitude", vector_of floatX) ].

(** [Stream.inputs().keys()] *)
Definition Stream_inputs_keys : seq string := unzip1 Stream_inputs.

End Inputs.

(** * Specifications *)

Module Spec.

(** The Fibonacci rule on a list: every element from the third on is the
    sum of its two predecessors. *)
Definition fib_rule (l : seq nat) : Prop :=
  forall i, 2 <= i -> i < size l -> nth 0 l i = nth 0 l i.-1 + nth 0 l i.-2.

Section Cost.

Import GRing.Theory.
Local Open Scope ring_scope.

Variable F : fieldType.

(** A matrix with [rows] rows of [cols] entries each. *)
Definition shaped (rows cols : nat) (m : Tensor.matrix F) : bool :=
  (size m == rows) && all (fun r => size r == cols) m.

(** The mask-weighted mean distance, in the words of the cost: over all
    pairs of a time step [t < T] and an example [b < B], the sum of the
    distance between the true destination of [b] and the destination
    predicted for [b] at step [t], times the mask entry of [b] at [t],
    divided by the sum of all mask entries.  [res] is time-major
    (step, example, coordinate); [latitude_mask] is the cost's argument
    (example, step). *)
Definition masked_mean_distance
    (erdist_point : Tensor.vector F -> Tensor.vector F -> F) (T B : nat)
    (destination_latitude destination_longitude : Tensor.vector F)
    (res : Tensor.tensor3 F) (latitude_mask : Tensor.matrix F) : option F :=
  Tensor.div
    (\sum_(0 <= t < T) \sum_(0 <= b < B)
        erdist_point
          [:: nth 0 destination_latitude b; nth 0 destination_longitude b]
          (nth [::] (nth [::] res t) b)
        * nth 0 (nth [::] latitude_mask b) t)
    (\sum_(r <- latitude_mask) \sum_(x <- r) x).

End Cost.

Section Streams.

Local Open Scope string_scope.

(** The names a stream selects before batching: [req_vars] without the
    names that end in [_mask]. *)
Definition non_mask (req_vars : seq string) : seq string :=
  [seq v <- req_vars | ~~ Py.endswith v "_mask"].

(** The sources after padding a stream that carries [kept], with masks
    for latitude and longitude. *)
Definition padded (kept : seq string) : seq string :=
  flatten [seq if x \in [:: "latitude"; "longitude"]
               then [:: x; x ++ "_mask"] else [:: x]
          | x <- kept].

(** Every mask name in [req_vars] is [latitude_mask] or [longitude_mask]. *)
Definition masks_known (req_vars : seq string) : bool :=
  all (fun v => Py.endswith v "_mask"
                ==> (v \in [:: "latitude_mask"; "longitude_mask"]))
      req_vars.

(** Every name in [req_vars] can be served: a non-mask name is a source
    of the stream before the first selection ([upstream]); a mask name
    is the mask of latitude or longitude, and that name itself is in
    [req_vars]. *)
Definition requestable (upstream req_vars : seq string) : bool :=
  all (fun v =>
         if Py.endswith v "_mask"
         then ((v == "latitude_mask") && ("latitude" \in req_vars))
              || ((v == "longitude_mask") && ("longitude" \in req_vars))
         else v \in upstream)
      req_vars.

(** The shape the three pipelines end in: a selection of the non-mask
    names, then batching, then padding with masks for latitude and
    longitude, then the selection of [req_vars]. *)
Definition selected_padded (value : Type) (req_vars : seq string)
    (s : Obj.stream value) : bool :=
  match s with
  | Obj.Select (Obj.Padding b mask_sources) final =>
      [&& mask_sources == [:: "latitude"; "longitude"], final == req_vars
        & match b with
          | Obj.balanced_batch (Obj.Select _ kept) _ _ _
          | Obj.Batch (Obj.Select _ kept) _ => kept == non_mask req_vars
          | _ => false
          end]
  | _ => false
  end.

(** Does a stream add the destination fields? *)
Fixpoint adds_destination (value : Type) (s : Obj.stream value) : bool :=
  match s with
  | Obj.DataStream _ _ | Obj.TaxiStream _ _ => false
  | Obj.add_destination _ => true
  | Obj.TaxiExcludeTrips s _ | Obj.TaxiExcludeEmptyTrips s
  | Obj.taxi_add_datetime s | Obj.taxi_remove_test_only_clients s
  | Obj.Select s _ | Obj.balanced_batch s _ _ _ | Obj.Batch s _
  | Obj.Padding s _ => adds_destination s
  end.

Definition datetime_fields : seq string :=
  [:: "week_of_year"; "day_of_week"; "qhour_of_day"].

Definition destination_fields : seq string :=
  [:: "destination_latitude"; "destination_longitude"].

End Streams.

End Spec.

(** * A concrete batch and concrete files

    The bricks, the data constants and the stored files are parameters of
    the model.  These instances, over the rationals, are the ones the
    properties below are run on. *)

Module Example.

Import GRing.Theory.
Local Open Scope ring_scope.

Definition config : Rnn.config :=
  Rnn.Config (Rnn.EmbedderConfig [::]) (Rnn.EmbedderConfig [::]) 3 200 10
    "cuts/test_times_0".

Definition kwargs_get (kw : unit) (name : string) : Tensor.vector rat :=
  if name == "destination_latitude"%string then [:: 41%:Q] else [:: - 8%:Q].

Definition MLP_apply (mlp : Rnn.MLP) (r : Tensor.vector rat)
  : Tensor.vector rat :=
  nseq (last 0%N (Rnn.MLP_dims mlp)) (Tensor.sum r).

Definition ContextEmbedder_apply (ce : Rnn.ContextEmbedder) (kw : unit)
  : seq (Tensor.matrix rat) := [::].

Definition LSTM_apply (lstm : Rnn.LSTM) (inputs states cells : Tensor.vector rat)
    (mask : rat) : Tensor.vector rat * Tensor.vector rat :=
  ([seq mask * x | x <- take (Rnn.LSTM_dim lstm) inputs], cells).

Definition LSTM_initial_state (lstm : Rnn.LSTM) (name : string) (batch : nat)
  : Tensor.matrix rat :=
  nseq batch (nseq (Rnn.LSTM_dim lstm) 0).

Definition erdist_point (a b : Tensor.vector rat) : rat :=
  (nth 0 a 0 - nth 0 b 0) * (nth 0 a 0 - nth 0 b 0)
  + (nth 0 a 1 - nth 0 b 1) * (nth 0 a 1 - nth 0 b 1).

Definition train_gps_mean : rat * rat := (41%:Q, - 8%:Q).
Definition train_gps_std : rat * rat := (2%:Q, 3%:Q).

Definition latitude : Tensor.matrix rat := [:: [:: 43%:Q; 45%:Q]].
Definition longitude : Tensor.matrix rat := [:: [:: - 5%:Q; - 2%:Q]].
Definition latitude_mask : Tensor.matrix rat := [:: [:: 1; 0]].

(** Stored files: every set holds the ten columns of a trip, two
    examples each; the test file of this example also stores the
    destination. *)
Definition trip_columns : seq string :=
  [:: "trip_id"; "call_type"; "origin_call"; "origin_stand"; "taxi_id";
      "timestamp"; "day_type"; "missing_data"; "latitude";
      "longitude"]%string.

Definition file_sources (which_set : string) (filename : option string)
  : seq string :=
  if which_set == "test"%string
  then trip_columns ++ [:: "destination_latitude"; "destination_longitude"]%string
  else trip_columns.

Definition examples (which_set : string) (filename : option string) : nat := 2.

Definition column (which_set : string) (filename : option string)
    (source : string) : seq nat :=
  if source == "trip_id"%string then [:: 11; 12]%N else [:: 0; 0]%N.

Definition req_vars : seq string :=
  [:: "latitude"; "latitude_mask"; "longitude"; "taxi_id"]%string.

End Example.

(** * Specifications and instances for the inputs *)

Module SpecInputs.

Local Open Scope string_scope.

(** The variables of [Stream.inputs] that are columns of the stored
    trips: all but the masks, the datetime fields and the destination. *)
Definition trip_inputs : seq string :=
  [:: "call_type"; "origin_call"; "origin_stand"; "taxi_id"; "timestamp";
      "day_type"; "missing_data"; "latitude"; "longitude"].

(** A configuration with two embedded variables before the recurrent
    layer and one after it, and the names an embedder reads: those of
    its embedding tables. *)
Definition config : Rnn.config :=
  Rnn.Config
    (Rnn.EmbedderConfig [:: ("origin_call", 100, 10); ("week_of_year", 52, 10)])
    (Rnn.EmbedderConfig [:: ("taxi_id", 448, 10)])
    3 200 10 "cuts/test_times_0".

Definition ContextEmbedder_inputs (ce : Rnn.ContextEmbedder) : seq string :=
  [seq x.1.1 | x <- Rnn.dim_embeddings (Rnn.CE_config ce)].

(** Stored files in which every set, the test set too, holds the trip
    columns and nothing else. *)
Definition plain_file_sources (which_set : string) (filename : option string)
  : seq string := Example.trip_columns.

End SpecInputs.

(** * Properties of the configuration *)

Module ConfigProps.

Import Config.

Lemma sum_sumn (xs : seq nat) : Py.sum xs = sumn xs.
Proof.
rewrite /Py.sum -[RHS]add0n; elim: xs 0 => [|x xs IH] a /=; first by rewrite addn0.
by rewrite IH addnA.
Qed.

Lemma getitem_neg_nth (l : seq nat) (k : nat) :
  0 < k -> k <= size l -> Py.getitem_neg l k = Some (nth 0 l (size l - k)).
Proof.
move=> k0 kl; rewrite /Py.getitem_neg k0 kl /=.
by rewrite (drop_nth 0) // -subn_gt0 subKn.
Qed.

(** One turn of the loop appends the sum of the last two elements. *)
Lemma append_nextE (l : seq nat) :
  2 <= size l ->
  append_next l = Some (rcons l (nth 0 l (size l).-1 + nth 0 l (size l).-2)).
Proof.
move=> sl; have sl1 : 0 < size l by exact: ltnW.
by rewrite /append_next !getitem_neg_nth // subn1 subn2.
Qed.

Lemma fib_rule_rcons (l : seq nat) :
  2 <= size l -> Spec.fib_rule l ->
  Spec.fib_rule (rcons l (nth 0 l (size l).-1 + nth 0 l (size l).-2)).
Proof.
move=> sl fl i i2; rewrite size_rcons ltnS leq_eqVlt => /orP [/eqP ->|il].
  rewrite !nth_rcons ltnn eqxx.
  by rewrite !ifT // ?prednK ?(ltn_predL, leq_pred) //; case: (size l) sl => [|[|n]].
rewrite !nth_rcons il.
have -> : i.-1 < size l by apply: leq_ltn_trans il; exact: leq_pred.
have -> : i.-2 < size l.
  by apply: leq_ltn_trans il; apply: leq_trans (leq_pred _) (leq_pred _).
exact: fl.
Qed.

(** The loop invariant: [n] turns extend the list by [n] elements, keep
    what was there, and keep the Fibonacci rule. *)
Lemma for_range_append_next (n : nat) (l : seq nat) :
  2 <= size l -> Spec.fib_rule l ->
  exists l', [/\ Py.for_range n append_next l = Some l',
                 size l' = size l + n, take (size l) l' = l
               & Spec.fib_rule l'].
Proof.
elim: n l => [|n IH] l sl fl.
  by exists l; split; rewrite ?addn0 ?take_size.
have sl' : 2 <= size (rcons l (nth 0 l (size l).-1 + nth 0 l (size l).-2)).
  by rewrite size_rcons; exact: leqW.
have [l' [run sz tk fr]] := IH _ sl' (fib_rule_rcons sl fl).
exists l'; split=> //.
- by rewrite /= append_nextE.
- by rewrite sz size_rcons addSnnS.
- move: tk; rewrite size_rcons => tk.
  by rewrite -(take_takel l' (leqnSn (size l))) tk -cats1 take_size_cat.
Qed.

(** C7: [time_tgtcls] is the list of length 23 that starts [1, 2] and
    follows the Fibonacci rule from the third element on (the loop ran
    21 times without raising), and [dim_output_time] is its length, 23. *)
Theorem time_tgtcls_fibonacci :
  [/\ time_tgtcls_run = Some time_tgtcls,
      size time_tgtcls = 23,
      take 2 time_tgtcls = [:: 1; 2],
      Spec.fib_rule time_tgtcls
    & dim_output_time = 23].
Proof.
have f12 : Spec.fib_rule [:: 1; 2] by case=> [|[|i]].
have [l [run sz tk fr]] := @for_range_append_next 21 [:: 1; 2] isT f12.
have El : time_tgtcls = l by rewrite /time_tgtcls /time_tgtcls_run run.
by rewrite /dim_output_time /time_tgtcls_run El run sz tk.
Qed.

(** C4: the configuration declares seven embedding tables, their output
    dimensions sum to 75, and [dim_input] is
    [n_begin_end_pts * 2 * 2 = 40] plus that sum, 115. *)
Theorem dim_input_115 (origin_call_size stands_size : nat) :
  let tables := dim_embeddings origin_call_size stands_size in
  [/\ size tables = 7,
      Py.sum [seq x.2 | x <- tables] = 75,
      n_begin_end_pts * 2 * 2 = 40,
      dim_input origin_call_size stands_size
        = n_begin_end_pts * 2 * 2 + Py.sum [seq x.2 | x <- tables]
    & dim_input origin_call_size stands_size = 115].
Proof. by []. Qed.

(** The list itself. *)
Example time_tgtcls_value :
  time_tgtcls
  = [:: 1; 2; 3; 5; 8; 13; 21; 34; 55; 89; 144; 233; 377; 610; 987; 1597;
        2584; 4181; 6765; 10946; 17711; 28657; 46368].
Proof. by apply/eqP; vm_compute. Qed.

(** With fewer than two elements the loop body raises. *)
Example append_next_short : append_next [:: 1] = None.
Proof. by []. Qed.

End ConfigProps.

(** * Properties of the recurrent model *)

Module RnnProps.

Import GRing.Theory.
Local Open Scope ring_scope.

Section Tensors.

Variable F : fieldType.

Notation vector := (Tensor.vector F).
Notation matrix := (Tensor.matrix F).

(** The two columns [lat] and [lon], side by side: row [i] is the pair of
    their entries [i]. *)
Lemma concatenate_columns (lat lon : vector) :
  size lat = size lon ->
  Tensor.concatenate_axis1
    [:: Tensor.shape_padright lat; Tensor.shape_padright lon]
  = [seq [:: x.1; x.2] | x <- zip lat lon].
Proof.
move=> sz; rewrite /Tensor.concatenate_axis1 /Tensor.shape_padright /= size_map.
apply: (@eq_from_nth _ [::]); first by rewrite !size_map size_iota size_zip -sz minnn.
move=> i; rewrite size_map size_iota => il.
rewrite (nth_map 0%N) ?size_iota // nth_iota // add0n.
rewrite (nth_map (0, 0)) ?size_zip -?sz ?minnn // nth_zip //=.
by rewrite !(nth_map 0) -?sz.
Qed.

Lemma zip_map2 (A B A' B' : Type) (f : A -> A') (g : B -> B')
    (a : seq A) (b : seq B) :
  zip [seq f x | x <- a] [seq g y | y <- b]
  = [seq (f x.1, g x.2) | x <- zip a b].
Proof. by elim: a b => [|x a IH] [|y b] //=; rewrite IH. Qed.

Lemma denormalize_rows (mean std : F * F) (ps : seq (F * F)) :
  Rnn.denormalize mean std [seq [:: x.1; x.2] | x <- ps]
  = [seq [:: x.1 * std.1 + mean.1; x.2 * std.2 + mean.2] | x <- ps].
Proof.
by rewrite /Rnn.denormalize /Tensor.broadcast -!map_comp.
Qed.

End Tensors.

(** C9: the coordinates enter the network through
    [x |-> (x - train_gps_mean) / train_gps_std] and the output leaves it
    through [y |-> y * train_gps_std + train_gps_mean].  When both
    components of [train_gps_std] are non-zero the two maps are inverse
    to each other: denormalizing the normalized coordinates of a batch
    gives the coordinates back, and normalizing the columns of a
    denormalized output gives the output back. *)
Theorem normalize_denormalize_inverse (F : fieldType) (mean std : F * F) :
  std.1 != 0 -> std.2 != 0 ->
  (forall lat lon : Tensor.vector F, size lat = size lon ->
     Rnn.denormalize mean std
       (Tensor.concatenate_axis1
          [:: Tensor.shape_padright (Rnn.normalize mean.1 std.1 lat);
              Tensor.shape_padright (Rnn.normalize mean.2 std.2 lon)])
     = Tensor.concatenate_axis1
         [:: Tensor.shape_padright lat; Tensor.shape_padright lon])
  /\
  (forall ys : seq (F * F),
     let out := Rnn.denormalize mean std [seq [:: y.1; y.2] | y <- ys] in
     Rnn.normalize mean.1 std.1 [seq nth 0 r 0 | r <- out] = unzip1 ys
     /\ Rnn.normalize mean.2 std.2 [seq nth 0 r 1 | r <- out] = unzip2 ys).
Proof.
move=> s1 s2; split=> [lat lon sz|ys /=].
  rewrite !concatenate_columns ?size_map // /Rnn.normalize.
  rewrite zip_map2 denormalize_rows -map_comp.
  apply: eq_map => -[x y] /=.
  by rewrite !divfK // !subrK.
rewrite denormalize_rows /Rnn.normalize -!map_comp /unzip1 /unzip2.
by split; apply: eq_map => -[y1 y2] /=; rewrite addrK mulfK.
Qed.

(** The maps at the mean and standard deviation [(41, -8)] and [(2, 3)]. *)
Lemma normalize_denormalize_inverse_witness :
  Rnn.denormalize (41%:Q, - 8%:Q) (2%:Q, 3%:Q)
    (Tensor.concatenate_axis1
       [:: Tensor.shape_padright (Rnn.normalize 41%:Q 2%:Q [:: 43%:Q]);
           Tensor.shape_padright (Rnn.normalize (- 8%:Q) 3%:Q [:: 1%:Q])])
  = Tensor.concatenate_axis1
      [:: Tensor.shape_padright [:: 43%:Q]; Tensor.shape_padright [:: 1%:Q]].
Proof.
have [H _] := @normalize_denormalize_inverse rat (41%:Q, - 8%:Q) (2%:Q, 3%:Q)
                isT isT.
exact: (H [:: 43%:Q] [:: 1%:Q] erefl).
Defined.

Lemma getitem_neg_last (T : Type) (x0 : T) (l : seq T) :
  Py.getitem_neg l 1 = if l is [::] then None else Some (last x0 l).
Proof.
case/lastP: l => [//|s x]; rewrite /Py.getitem_neg size_rcons /= subn1 /=.
rewrite -cats1 drop_size_cat //= cats1 last_rcons.
by case: s.
Qed.

Section Model.

Variables (F : fieldType) (kwargs : Type).
Variable kwargs_get : kwargs -> string -> Tensor.vector F.
Variable MLP_apply : Rnn.MLP -> Tensor.vector F -> Tensor.vector F.
Variable ContextEmbedder_apply :
  Rnn.ContextEmbedder -> kwargs -> seq (Tensor.matrix F).
Variable LSTM_apply :
  Rnn.LSTM -> Tensor.vector F -> Tensor.vector F -> Tensor.vector F -> F ->
  Tensor.vector F * Tensor.vector F.
Variable LSTM_initial_state : Rnn.LSTM -> string -> nat -> Tensor.matrix F.
Variable erdist_point : Tensor.vector F -> Tensor.vector F -> F.
Variables train_gps_mean train_gps_std : F * F.

Notation vector := (Tensor.vector F).
Notation matrix := (Tensor.matrix F).
Notation tensor3 := (Tensor.tensor3 F).
Notation predict_all_step :=
  (Rnn.predict_all_step MLP_apply ContextEmbedder_apply LSTM_apply
     train_gps_mean train_gps_std).
Notation recurrent :=
  (Rnn.recurrent MLP_apply ContextEmbedder_apply LSTM_apply
     train_gps_mean train_gps_std).
Notation predict_all :=
  (Rnn.predict_all MLP_apply ContextEmbedder_apply LSTM_apply
     LSTM_initial_state train_gps_mean train_gps_std).
Notation predict :=
  (Rnn.predict MLP_apply ContextEmbedder_apply LSTM_apply
     LSTM_initial_state train_gps_mean train_gps_std).
Notation cost :=
  (Rnn.cost kwargs_get MLP_apply ContextEmbedder_apply LSTM_apply
     LSTM_initial_state erdist_point train_gps_mean train_gps_std).

(** C1: [predict] transposes its three sequences to time-major order,
    runs [predict_all] on them and returns the last element, along the
    time axis, of the destination output: the prediction at the last
    time step only (and nothing when there is no time step). *)
Theorem predict_last_destination (self : Rnn.Model)
    (latitude longitude latitude_mask : matrix) (kw : kwargs) :
  let destination :=
    (predict_all self (Tensor.transpose latitude) (Tensor.transpose longitude)
       (Tensor.transpose latitude_mask) kw).1.1 in
  predict self latitude longitude latitude_mask kw
    = Py.getitem_neg destination 1
  /\ predict self latitude longitude latitude_mask kw
    = (if destination is [::] then None else Some (last [::] destination)).
Proof. by split; rewrite /Rnn.predict // (getitem_neg_last [::]). Qed.

(** Repeating along axis 1 multiplies the width of every row. *)
Lemma size_repeat_axis0 (T : Type) (n : nat) (r : seq T) :
  size (Tensor.repeat_axis0 n r) = (n * size r)%N.
Proof.
rewrite /Tensor.repeat_axis0 size_flatten /shape -map_comp.
elim: r => [|x r IH] /=; first by rewrite muln0.
by rewrite IH size_nseq mulnS.
Qed.

(** C5: [Model.__init__] builds the input MLP with one Tanh layer from
    [2 + sum of the pre-embedder's embedding dimensions] to
    [hidden_state_dim], the LSTM of dimension [hidden_state_dim], and the
    output MLP with one Tanh layer from [hidden_state_dim + sum of the
    post-embedder's embedding dimensions] to 2; in each step the LSTM's
    input is the input MLP's output with every entry repeated 4 times. *)
Theorem model_layer_dimensions (cfg : Rnn.config) :
  let self := Rnn.Model_init cfg in
  let in1 := (2 + Py.sum [seq x.2 | x <- Rnn.dim_embeddings (Rnn.pre_embedder cfg)])%N in
  let in2 := (Rnn.hidden_state_dim cfg
              + Py.sum [seq x.2 | x <- Rnn.dim_embeddings (Rnn.post_embedder cfg)])%N in
  [/\ Rnn.input_to_rec self
        = Rnn.MkMLP [:: Rnn.Tanh] [:: in1; Rnn.hidden_state_dim cfg] "input_to_rec",
      Rnn.rec self = Rnn.MkLSTM (Rnn.hidden_state_dim cfg) "recurrent",
      Rnn.rec_to_output self = Rnn.MkMLP [:: Rnn.Tanh] [:: in2; 2] "rec_to_output",
      forall (latitude longitude latitude_mask : vector) (kw : kwargs)
             (states cells : matrix),
        let itr :=
          Rnn.MLP_apply_batch MLP_apply (Rnn.input_to_rec self)
            (Tensor.concatenate_axis1
               (ContextEmbedder_apply (Rnn.pre_context_embedder self) kw
                ++ [:: Tensor.shape_padright
                         (Rnn.normalize train_gps_mean.1 train_gps_std.1 latitude);
                       Tensor.shape_padright
                         (Rnn.normalize train_gps_mean.2 train_gps_std.2 longitude)])) in
        let next :=
          Rnn.LSTM_apply_batch LSTM_apply (Rnn.rec self)
            (Tensor.repeat_axis1 4 itr) states cells latitude_mask in
        predict_all_step self latitude longitude latitude_mask kw states cells
        = (Rnn.denormalize train_gps_mean train_gps_std
             (Rnn.MLP_apply_batch MLP_apply (Rnn.rec_to_output self)
                (Tensor.concatenate_axis1
                   (ContextEmbedder_apply (Rnn.post_context_embedder self) kw
                    ++ [:: next.1]))),
           next.1, next.2)
    & forall m : matrix,
        Tensor.repeat_axis1 4 m = [seq flatten [seq [:: x; x; x; x] | x <- r] | r <- m]
        /\ [seq size r | r <- Tensor.repeat_axis1 4 m] = [seq (4 * size r)%N | r <- m]].
Proof.
split=> // m; split=> //.
by rewrite /Tensor.repeat_axis1 -map_comp; apply: eq_map => r /=; rewrite size_repeat_axis0.
Qed.


(** *** Shapes *)

Lemma size_transpose (m : matrix) :
  size (Tensor.transpose m) = size (head [::] m).
Proof. by rewrite /Tensor.transpose size_map size_iota. Qed.

Lemma nth_transpose (m : matrix) (j : nat) :
  (j < size (head [::] m))%N ->
  nth [::] (Tensor.transpose m) j = [seq nth 0 r j | r <- m].
Proof.
by move=> jm; rewrite /Tensor.transpose (nth_map 0%N) ?size_iota // nth_iota.
Qed.

Lemma shaped_transpose (B T : nat) (m : matrix) :
  (0 < B)%N -> Spec.shaped B T m -> Spec.shaped T B (Tensor.transpose m).
Proof.
move=> B0 /andP [/eqP szm /allP szr].
case: m => [|r m] in szm szr *; first by rewrite -szm in B0.
rewrite /Spec.shaped size_transpose [head _ _]/= (eqP (szr r _)) ?mem_head //.
rewrite eqxx /=.
by apply/allP => c /mapP [j _ ->]; rewrite size_map szm.
Qed.

Lemma size_concatenate_axis1 (ms : seq matrix) :
  size (Tensor.concatenate_axis1 ms) = size (head [::] ms).
Proof. by rewrite /Tensor.concatenate_axis1 size_map size_iota. Qed.

Lemma size_head_cat (B : nat) (ms tl : seq matrix) (x : matrix) :
  (forall m, m \in ms -> size m = B) -> size x = B ->
  size (head [::] (ms ++ x :: tl)) = B.
Proof. by case: ms => [|m ms] //= Hms _; apply: Hms; rewrite mem_head. Qed.

Lemma shaped_denormalize (B : nat) (m : matrix) :
  Spec.shaped B 2 m ->
  Spec.shaped B 2 (Rnn.denormalize train_gps_mean train_gps_std m).
Proof.
move=> /andP [/eqP szm /allP szr]; rewrite /Spec.shaped /Rnn.denormalize.
rewrite /Tensor.broadcast !size_map szm eqxx /= -map_comp.
apply/allP => r /mapP [r0 /szr /eqP sr0 ->].
by case: r0 sr0 => [|a [|b [|c r0]]].
Qed.

Section Shapes.

Variables (self : Rnn.Model) (kw : kwargs) (B : nat).

Hypothesis output_width :
  forall r, size (MLP_apply (Rnn.rec_to_output self) r) = 2%N.
Hypothesis embedder_rows :
  forall ce m, m \in ContextEmbedder_apply ce kw -> size m = B.

(** One step on a batch of [B] examples gives [B] destinations of two
    coordinates, and [B] state and cell rows. *)
Lemma predict_all_step_shape (lat lon mask : vector) (st ce : matrix) :
  size lat = B -> size lon = B -> size mask = B ->
  size st = B -> size ce = B ->
  let out := predict_all_step self lat lon mask kw st ce in
  [/\ Spec.shaped B 2 out.1.1, size out.1.2 = B & size out.2 = B].
Proof.
move=> slat slon smask sst sce.
set pre := ContextEmbedder_apply (Rnn.pre_context_embedder self) kw.
set post := ContextEmbedder_apply (Rnn.post_context_embedder self) kw.
have sz_rows : size (zip (zip (zip
    (Tensor.repeat_axis1 4 (Rnn.MLP_apply_batch MLP_apply (Rnn.input_to_rec self)
       (Tensor.concatenate_axis1 (pre ++ [::
          Tensor.shape_padright (Rnn.normalize train_gps_mean.1 train_gps_std.1 lat);
          Tensor.shape_padright (Rnn.normalize train_gps_mean.2 train_gps_std.2 lon)]))))
    st) ce) mask) = B.
  rewrite /Tensor.repeat_axis1 /Rnn.MLP_apply_batch.
  rewrite !size_zip !size_map size_iota sst sce smask.
  rewrite (@size_head_cat B) ?minnn //; first exact: embedder_rows.
  by rewrite /Tensor.shape_padright /Rnn.normalize !size_map.
rewrite /Rnn.predict_all_step /Rnn.LSTM_apply_batch /= -/pre -/post.
move: sz_rows; set z := zip _ mask => sz_rows.
have sz_head (tl : seq matrix) (x : matrix) (ms : seq matrix) :
    (forall m, m \in ms -> size m = B) -> size x = B ->
    size (head [::] (ms ++ x :: tl)) = B by exact: size_head_cat.
split; rewrite ?size_map ?sz_rows //.
apply: shaped_denormalize.
rewrite /Spec.shaped /Rnn.MLP_apply_batch !size_map size_iota.
rewrite sz_head ?eqxx /=.
- exact: embedder_rows.
- by rewrite /unzip1 !size_map.
- by apply/allP => r /mapP [r0 _ ->]; rewrite output_width.
Qed.

End Shapes.

(** The scan keeps the batch shape: every step's destination is [B] rows
    of two coordinates. *)
Lemma recurrent_shape (self : Rnn.Model) (kw : kwargs) (B : nat)
    (steps : seq (vector * vector * vector)) (st ce : matrix) :
  (forall r, size (MLP_apply (Rnn.rec_to_output self) r) = 2%N) ->
  (forall ce m, m \in ContextEmbedder_apply ce kw -> size m = B) ->
  all (fun x => [&& size x.1.1 == B, size x.1.2 == B & size x.2 == B]) steps ->
  size st = B -> size ce = B ->
  size (recurrent self steps kw st ce) = size steps
  /\ all (fun o => Spec.shaped B 2 o.1.1) (recurrent self steps kw st ce).
Proof.
move=> Hout Hemb.
elim: steps st ce => [//|[[lat lon] mask] steps IH] st ce /=.
case/andP => /and3P [/eqP slat /eqP slon /eqP smask] Hsteps sst sce.
have [sh s1 s2] :=
  predict_all_step_shape Hout Hemb slat slon smask sst sce.
have [-> ->] := IH _ _ Hsteps s1 s2.
by rewrite sh.
Qed.

(** *** The pieces of the cost *)

Lemma target_rows (a b : vector) :
  Tensor.concatenate_axis2 (Tensor.dimshuffle_x0x a) (Tensor.dimshuffle_x0x b)
  = [:: [seq [:: x.1; x.2] | x <- zip a b]].
Proof.
rewrite /Tensor.concatenate_axis2 /Tensor.dimshuffle_x0x /= zip_map2.
by rewrite -map_comp.
Qed.

Lemma repeat_axis0_seq1 (T : Type) (n : nat) (x : T) :
  Tensor.repeat_axis0 n [:: x] = nseq n x.
Proof. by rewrite /Tensor.repeat_axis0 /= cats0. Qed.

Lemma shape_rows2 (ss : matrix) :
  all (fun r => size r == 2%N) ss -> shape ss = nseq (size ss) 2%N.
Proof. by elim: ss => [|r ss IH] //= /andP [/eqP -> /IH ->]. Qed.

Lemma reshape_rows2_flatten (t : tensor3) :
  all (all (fun r => size r == 2%N)) t -> Tensor.reshape_rows2 t = flatten t.
Proof.
move=> Ht; have Hss : all (fun r => size r == 2%N) (flatten t).
  by apply/allP => r /flattenP [m mt rm]; exact: (allP (allP Ht m mt)).
rewrite /Tensor.reshape_rows2 size_flatten (shape_rows2 Hss) sumn_nseq.
by rewrite mulKn // -(shape_rows2 Hss) flattenK.
Qed.

Lemma zip_flatten (A A' : Type) (a : seq (seq A)) (b : seq (seq A')) :
  size a = size b ->
  (forall i, size (nth [::] a i) = size (nth [::] b i)) ->
  zip (flatten a) (flatten b) = flatten [seq zip x.1 x.2 | x <- zip a b].
Proof.
elim: a b => [|x a IH] [|y b] //= [sz] Hi.
have H0 := Hi 0%N.
rewrite zip_cat //.
by rewrite IH // => i; exact: (Hi i.+1).
Qed.

Lemma zip_map1 (A A' A'' : Type) (f : A -> A'') (a : seq A) (b : seq A') :
  zip [seq f x | x <- a] b = [seq (f x.1, x.2) | x <- zip a b].
Proof. by elim: a b => [|x a IH] [|y b] //=; rewrite IH. Qed.

Lemma sumE (v : vector) : Tensor.sum v = \sum_(x <- v) x.
Proof. exact: foldrE. Qed.

(** A sum over the entries of a [n] x [B] matrix, by row and column. *)
Lemma sum_flatten_nth (A : Type) (a0 : A) (G : A -> F) (n B : nat)
    (ss : seq (seq A)) :
  size ss = n -> all (fun r => size r == B) ss ->
  \sum_(x <- flatten ss) G x
  = \sum_(0 <= t < n) \sum_(0 <= b < B) G (nth a0 (nth [::] ss t) b).
Proof.
move=> sz Hss; rewrite big_flatten /= (big_nth [::]) sz.
apply: eq_big_nat => t /andP [_ tn].
have /eqP szt : size (nth [::] ss t) == B.
  by move/(all_nthP [::]): Hss; apply; rewrite sz.
by rewrite (big_nth a0) szt.
Qed.

Lemma sum_zip3_nth (A A' A'' : Type) (a0 : A) (b0 : A') (c0 : A'')
    (G : A -> A' -> A'' -> F) (n : nat)
    (a : seq A) (b : seq A') (c : seq A'') :
  size a = n -> size b = n -> size c = n ->
  \sum_(q <- zip (zip a b) c) G q.1.1 q.1.2 q.2
  = \sum_(0 <= i < n) G (nth a0 a i) (nth b0 b i) (nth c0 c i).
Proof.
move=> sa sb sc; rewrite (big_nth ((a0, b0), c0)) !size_zip sa sb sc !minnn.
apply: eq_big_nat => i /andP [_ il].
by rewrite !nth_zip ?size_zip ?sa ?sb ?sc ?minnn.
Qed.

Lemma zip_nil_l (A A' : Type) (b : seq A') : zip ([::] : seq A) b = [::].
Proof. by case: b. Qed.

Lemma all_zip3 (A A' A'' : Type) (P : pred A) (P' : pred A') (P'' : pred A'')
    (a : seq A) (b : seq A') (c : seq A'') :
  all P a -> all P' b -> all P'' c ->
  all (fun x => [&& P x.1.1, P' x.1.2 & P'' x.2]) (zip (zip a b) c).
Proof.
elim: a b c => [|x a IH] [|y b] [|z c] //=.
move=> /andP [-> Ha] /andP [-> Hb] /andP [-> Hc] /=.
exact: IH.
Qed.

Section CostShape.

Variables (self : Rnn.Model) (kw : kwargs) (B T : nat).
Variables (latitude longitude latitude_mask : matrix).

Hypothesis output_width :
  forall r, size (MLP_apply (Rnn.rec_to_output self) r) = 2%N.
Hypothesis embedder_rows :
  forall ce m, m \in ContextEmbedder_apply ce kw -> size m = B.
Hypothesis initial_rows :
  forall name, size (LSTM_initial_state (Rnn.rec self) name B) = B.
Hypothesis latitude_shape : Spec.shaped B T latitude.
Hypothesis longitude_shape : Spec.shaped B T longitude.
Hypothesis mask_shape : Spec.shaped B T latitude_mask.
Hypothesis destination_latitude_size :
  size (kwargs_get kw "destination_latitude") = B.
Hypothesis destination_longitude_size :
  size (kwargs_get kw "destination_longitude") = B.

Notation res :=
  (predict_all self (Tensor.transpose latitude) (Tensor.transpose longitude)
     (Tensor.transpose latitude_mask) kw).1.1.

(** The destinations of [predict_all]: one [B] x 2 matrix per time step. *)
Lemma predict_all_destination_shape :
  (0 < B)%N -> size res = T /\ all (Spec.shaped B 2) res.
Proof.
move=> B0; rewrite /Rnn.predict_all /= size_map.
have /andP [/eqP s1 a1] := shaped_transpose B0 latitude_shape.
have /andP [/eqP s2 a2] := shaped_transpose B0 longitude_shape.
have /andP [/eqP s3 a3] := shaped_transpose B0 mask_shape.
case E : (Tensor.transpose latitude) s1 a1 => [|r l] s1 a1; first by rewrite -s1 !zip_nil_l; split.
have szB : size (head [::] (r :: l)) = B by case/andP: a1 => /eqP.
have [] := @recurrent_shape self kw B
  (zip (zip (r :: l) (Tensor.transpose longitude))
       (Tensor.transpose latitude_mask))
  (Rnn.initial_state LSTM_initial_state self "states" B)
  (Rnn.initial_state LSTM_initial_state self "cells" B)
  output_width embedder_rows (all_zip3 a1 a2 a3)
  (initial_rows _) (initial_rows _).
rewrite !size_zip s1 s2 s3 !minnn szB => -> Hall; split=> //.
by rewrite all_map.
Qed.

Notation dlat := (kwargs_get kw "destination_latitude").
Notation dlon := (kwargs_get kw "destination_longitude").

(** An entry of the time-major mask is the entry of the mask at the
    swapped position. *)
Lemma nth_transpose_mask (t b : nat) :
  (t < T)%N -> (b < B)%N ->
  nth 0 (nth [::] (Tensor.transpose latitude_mask) t) b
  = nth 0 (nth [::] latitude_mask b) t.
Proof.
move=> tT bB; have /andP [/eqP sm /allP am] := mask_shape.
have hd : size (head [::] latitude_mask) = T.
  case: latitude_mask sm am => [|r m] sm am; first by rewrite -sm in bB.
  by apply/eqP/am; rewrite mem_head.
by rewrite nth_transpose ?hd // (nth_map [::]) ?sm.
Qed.

(** The sum of the time-major mask is the sum of the mask. *)
Lemma sum_transpose_mask :
  (0 < B)%N ->
  Tensor.sum (flatten (Tensor.transpose latitude_mask))
  = \sum_(r <- latitude_mask) \sum_(x <- r) x.
Proof.
move=> B0; have /andP [/eqP sT aT] := shaped_transpose B0 mask_shape.
have /andP [/eqP sm am] := mask_shape.
rewrite sumE (sum_flatten_nth 0 id sT aT).
transitivity
  (\sum_(0 <= t < T) \sum_(0 <= b < B) nth 0 (nth [::] latitude_mask b) t).
  apply: eq_big_nat => t /andP [_ tT]; apply: eq_big_nat => b /andP [_ bB].
  exact: nth_transpose_mask.
rewrite exchange_big_nat /= (big_nth [::]) sm.
apply: eq_big_nat => b /andP [_ bB].
have /eqP szb : size (nth [::] latitude_mask b) == T.
  by apply: (allP am); apply: mem_nth; rewrite sm.
by rewrite [RHS](big_nth 0) szb.
Qed.

(** The numerator of the cost, as a sum over steps and examples. *)
Lemma cost_numerator :
  (0 < B)%N ->
  Tensor.sum
    (Tensor.mul
       (Rnn.erdist erdist_point
          (Tensor.reshape_rows2
             (Tensor.repeat_axis0 (size (Tensor.transpose latitude))
                (Tensor.concatenate_axis2 (Tensor.dimshuffle_x0x dlat)
                   (Tensor.dimshuffle_x0x dlon))))
          (Tensor.reshape_rows2 res))
       (flatten (Tensor.transpose latitude_mask)))
  = \sum_(0 <= t < T) \sum_(0 <= b < B)
       erdist_point [:: nth 0 dlat b; nth 0 dlon b]
         (nth [::] (nth [::] res t) b)
       * nth 0 (nth [::] latitude_mask b) t.
Proof.
move=> B0.
have /andP [/eqP sL _] := shaped_transpose B0 latitude_shape.
have /andP [/eqP sM aM] := shaped_transpose B0 mask_shape.
have [sR aR] := predict_all_destination_shape B0.
have sdlat : size dlat = B := destination_latitude_size.
have sdlon : size dlon = B := destination_longitude_size.
set tgt : matrix := [seq [:: x.1; x.2] | x <- zip dlat dlon].
have stgt : size tgt = B by rewrite size_map size_zip sdlat sdlon minnn.
have nth_tgt b : (b < B)%N -> nth [::] tgt b = [:: nth 0 dlat b; nth 0 dlon b].
  move=> bB; rewrite (nth_map (0, 0)) ?size_zip ?sdlat ?sdlon ?minnn //.
  by rewrite nth_zip ?sdlat ?sdlon.
have szR t : (t < T)%N -> size (nth [::] res t) = B.
  move=> tT; have /andP [/eqP -> _] // : Spec.shaped B 2 (nth [::] res t).
  by apply: (allP aR); apply: mem_nth; rewrite sR.
have szM t : (t < T)%N -> size (nth [::] (Tensor.transpose latitude_mask) t) = B.
  by move=> tT; apply/eqP/(allP aM)/mem_nth; rewrite sM.
rewrite target_rows repeat_axis0_seq1 sL -/tgt.
have aTG : all (all (fun r : vector => size r == 2%N)) (nseq T tgt).
  by apply/allP => m /nseqP [-> _]; apply/allP => r /mapP [x _ ->].
have aRR : all (all (fun r : vector => size r == 2%N)) res.
  by apply/allP => m /(allP aR) /andP [_].
rewrite (reshape_rows2_flatten aTG) (reshape_rows2_flatten aRR).
rewrite sumE /Tensor.mul /Rnn.erdist zip_map1 -map_comp big_map /=.
have sz1 : size (nseq T tgt) = size res by rewrite size_nseq sR.
have in1 t : size (nth [::] (nseq T tgt) t) = size (nth [::] res t).
  case: (ltnP t T) => tT; first by rewrite nth_nseq tT stgt szR.
  by rewrite !nth_default // ?sR ?size_nseq.
rewrite (zip_flatten sz1 in1).
set ZR := [seq zip x.1 x.2 | x <- zip (nseq T tgt) res].
have sZR : size ZR = T by rewrite size_map size_zip size_nseq sR minnn.
have sz2 : size ZR = size (Tensor.transpose latitude_mask) by rewrite sZR sM.
have in2 t : size (nth [::] ZR t)
             = size (nth [::] (Tensor.transpose latitude_mask) t).
  case: (ltnP t T) => tT; last by rewrite !nth_default // ?sM // sZR.
  rewrite (nth_map ([::], [::])) ?size_zip ?size_nseq ?sR ?minnn //.
  rewrite nth_zip ?size_nseq ?sR //= -in1 minnn nth_nseq tT stgt.
  by rewrite szM.
rewrite (zip_flatten sz2 in2) /ZR.
rewrite big_flatten /= big_map zip_map1 big_map /=.
have /= -> := sum_zip3_nth [::] [::] [::]
           (fun a b c => \sum_(q <- zip (zip a b) c)
                           erdist_point q.1.1 q.1.2 * q.2)
           (size_nseq T tgt) sR sM.
apply: eq_big_nat => t /andP [_ tT]; rewrite nth_nseq tT.
have /= -> := sum_zip3_nth [::] [::] 0 (fun a b c => erdist_point a b * c)
           stgt (szR t tT) (szM t tT).
apply: eq_big_nat => b /andP [_ bB].
by rewrite nth_tgt // nth_transpose_mask.
Qed.

End CostShape.

Lemma sum_neq0_has (s : vector) :
  \sum_(x <- s) x != 0 -> has (fun x => x != 0) s.
Proof.
apply: contraNT; rewrite -all_predC => /allP Hs.
rewrite big_seq big1 // => x /Hs /=.
by rewrite negbK => /eqP.
Qed.

Lemma transpose_nonzero_entry (m : matrix) (x : F) :
  x \in flatten (Tensor.transpose m) -> x != 0 ->
  has (has (fun y => y != 0)) m.
Proof.
case/flattenP => row /mapP [j _ ->] /mapP [r rm ->] nz.
apply/hasP; exists r => //; apply/hasP; exists (nth 0 r j) => //.
apply: mem_nth; case: ltnP => // le.
by rewrite nth_default ?eqxx in nz.
Qed.

(** C8: with the batch shapes the training streams provide ([B] examples,
    [T] steps, an output MLP of two outputs), [cost] is the sum over all
    pairs of a step and an example of the distance between the true
    destination and the destination predicted at that step, times the
    mask entry, divided by the sum of the mask.  Nothing guards the
    division: the cost is a number only if the mask has a non-zero
    entry. *)
Theorem cost_masked_mean (cfg : Rnn.config) (kw : kwargs) (B T : nat)
    (latitude longitude latitude_mask : matrix) :
  let self := Rnn.Model_init cfg in
  let res :=
    (predict_all self (Tensor.transpose latitude) (Tensor.transpose longitude)
       (Tensor.transpose latitude_mask) kw).1.1 in
  (forall mlp r, size (MLP_apply mlp r) = last 0%N (Rnn.MLP_dims mlp)) ->
  (forall ce m, m \in ContextEmbedder_apply ce kw -> size m = B) ->
  (forall lstm name, size (LSTM_initial_state lstm name B) = B) ->
  Spec.shaped B T latitude -> Spec.shaped B T longitude ->
  Spec.shaped B T latitude_mask ->
  size (kwargs_get kw "destination_latitude") = B ->
  size (kwargs_get kw "destination_longitude") = B ->
  cost self latitude longitude latitude_mask kw
    = Spec.masked_mean_distance erdist_point T B
        (kwargs_get kw "destination_latitude")
        (kwargs_get kw "destination_longitude") res latitude_mask
  /\ (forall c, cost self latitude longitude latitude_mask kw = Some c ->
        has (has (fun x => x != 0)) latitude_mask).
Proof.
move=> self res Hmlp Hemb Hinit Hlat Hlon Hmask Hdlat Hdlon; split; last first.
  move=> c; rewrite /Rnn.cost /Tensor.div !sumE; case: ifP => // /negbT nz _.
  have /hasP [x xin xnz] := sum_neq0_has nz.
  exact: transpose_nonzero_entry xin xnz.
rewrite /Spec.masked_mean_distance /Rnn.cost -/res.
case: (posnP B) => [B0|Bpos].
  have E (m : matrix) : Spec.shaped B T m -> m = [::].
    by rewrite B0 => /andP [/eqP /size0nil].
  rewrite /res (E _ Hlat) (E _ Hlon) (E _ Hmask) target_rows /=.
  rewrite !big_nil.
  rewrite big1 // => t _.
  by rewrite B0 big_geq.
have Hout r : size (MLP_apply (Rnn.rec_to_output self) r) = 2%N.
  by rewrite Hmlp.
rewrite (cost_numerator Hout Hemb (Hinit _) Hlat Hlon Hmask Hdlat Hdlon Bpos).
by rewrite (sum_transpose_mask Hmask Bpos).
Qed.

End Model.

(** The cost on a batch of one example and two steps, over the
    rationals. *)
Lemma cost_masked_mean_witness :
  Rnn.cost Example.kwargs_get Example.MLP_apply Example.ContextEmbedder_apply
    Example.LSTM_apply Example.LSTM_initial_state Example.erdist_point
    Example.train_gps_mean Example.train_gps_std
    (Rnn.Model_init Example.config)
    Example.latitude Example.longitude Example.latitude_mask tt
  = Spec.masked_mean_distance Example.erdist_point 2 1
      (Example.kwargs_get tt "destination_latitude")
      (Example.kwargs_get tt "destination_longitude")
      (Rnn.predict_all Example.MLP_apply Example.ContextEmbedder_apply
         Example.LSTM_apply Example.LSTM_initial_state
         Example.train_gps_mean Example.train_gps_std
         (Rnn.Model_init Example.config)
         (Tensor.transpose Example.latitude)
         (Tensor.transpose Example.longitude)
         (Tensor.transpose Example.latitude_mask) tt).1.1
      Example.latitude_mask.
Proof.
have [H _] :=
  @cost_masked_mean rat unit Example.kwargs_get Example.MLP_apply
    Example.ContextEmbedder_apply Example.LSTM_apply
    Example.LSTM_initial_state Example.erdist_point
    Example.train_gps_mean Example.train_gps_std
    Example.config tt 1 2 Example.latitude Example.longitude
    Example.latitude_mask
    (fun mlp r => size_nseq _ _) (fun ce m (H : m \in [::]) => False_ind _ (notF H))
    (fun lstm name => size_nseq _ _) isT isT isT erefl erefl.
exact: H.
Defined.

(** On that batch the first step predicts [(53, 10)]; the second step is
    masked and predicts the mean, which is what [predict] returns; the
    cost is the squared distance 468 of the first step over the mask
    sum 1. *)
Example predict_all_example :
  (Rnn.predict_all Example.MLP_apply Example.ContextEmbedder_apply
     Example.LSTM_apply Example.LSTM_initial_state
     Example.train_gps_mean Example.train_gps_std
     (Rnn.Model_init Example.config)
     (Tensor.transpose Example.latitude) (Tensor.transpose Example.longitude)
     (Tensor.transpose Example.latitude_mask) tt).1.1
  = [:: [:: [:: 53%:Q; 10%:Q]]; [:: [:: 41%:Q; - 8%:Q]]].
Proof. by apply/eqP; vm_compute. Qed.

Example predict_example :
  Rnn.predict Example.MLP_apply Example.ContextEmbedder_apply
    Example.LSTM_apply Example.LSTM_initial_state
    Example.train_gps_mean Example.train_gps_std
    (Rnn.Model_init Example.config)
    Example.latitude Example.longitude Example.latitude_mask tt
  = Some [:: [:: 41%:Q; - 8%:Q]].
Proof. by apply/eqP; vm_compute. Qed.

Example cost_example :
  Rnn.cost Example.kwargs_get Example.MLP_apply Example.ContextEmbedder_apply
    Example.LSTM_apply Example.LSTM_initial_state Example.erdist_point
    Example.train_gps_mean Example.train_gps_std
    (Rnn.Model_init Example.config)
    Example.latitude Example.longitude Example.latitude_mask tt
  = Some 468%:Q.
Proof. by apply/eqP; vm_compute. Qed.

(** With a mask of zeros the cost is not a number. *)
Example cost_zero_mask :
  Rnn.cost Example.kwargs_get Example.MLP_apply Example.ContextEmbedder_apply
    Example.LSTM_apply Example.LSTM_initial_state Example.erdist_point
    Example.train_gps_mean Example.train_gps_std
    (Rnn.Model_init Example.config)
    Example.latitude Example.longitude [:: [:: 0; 0]] tt
  = None.
Proof. by apply/eqP; vm_compute. Qed.

End RnnProps.

(** * Properties of the streams *)

Module StreamProps.

Local Open Scope string_scope.

Lemma mem_non_mask (req_vars : seq string) (v : string) :
  (v \in Spec.non_mask req_vars) = ~~ Py.endswith v "_mask" && (v \in req_vars).
Proof. by rewrite mem_filter. Qed.

(** What padding offers: the sources kept, and the masks of latitude and
    longitude where these are kept. *)
Lemma mem_padded (kept : seq string) (v : string) :
  (v \in Spec.padded kept)
  = [|| v \in kept, (v == "latitude_mask") && ("latitude" \in kept)
      | (v == "longitude_mask") && ("longitude" \in kept)].
Proof.
elim: kept => [|x kept IH]; first by rewrite /= !andbF.
rewrite /Spec.padded /= mem_cat -/(Spec.padded kept) IH !in_cons.
case: (x =P "latitude") => [->|/eqP nlat].
  rewrite /= !in_cons in_nil orbF.
  by case: (v == _); case: (v == _); case: (v \in _); case: (v == _);
     case: (_ \in _); case: (_ \in _).
case: (x =P "longitude") => [->|/eqP nlon].
  rewrite /= !in_cons in_nil orbF.
  by case: (v == _); case: (v == _); case: (v \in _); case: (v == _);
     case: (_ \in _); case: (_ \in _).
rewrite /= in_cons in_nil orbF ["latitude" == x]eq_sym (negbTE nlat).
rewrite ["longitude" == x]eq_sym (negbTE nlon) /=.
by case: (v == x).
Qed.

Section Pipelines.

Import Streams.

Variable value : Type.
Variable file_sources : string -> option string -> seq string.
Variable examples : string -> option string -> nat.
Variable column : string -> option string -> string -> seq value.
Variable config : Rnn.config.

Notation stream := (Obj.stream value).
Notation sources := (Streams.sources file_sources).
Notation Select := (Streams.Select file_sources).
Notation train := (Streams.train file_sources examples column config).
Notation valid := (Streams.valid value file_sources config).
Notation test := (Streams.test value file_sources).

(** The two selections of a pipeline succeed exactly on the requestable
    lists. *)
Lemma selections_requestable (upstream req_vars : seq string) :
  all (fun v => v \in upstream) (Spec.non_mask req_vars)
  && all (fun v => v \in Spec.padded (Spec.non_mask req_vars)) req_vars
  = Spec.requestable upstream req_vars.
Proof.
apply/andP/allP => [[/allP Hup /allP Hpad] v vin|Hreq].
  move: (Hpad v vin); rewrite mem_padded !mem_non_mask vin andbT /=.
  case E: (Py.endswith v "_mask") => //= _.
  by apply: Hup; rewrite mem_non_mask E.
split; apply/allP => v.
  by rewrite mem_non_mask => /andP [/negbTE E vin]; move: (Hreq v vin); rewrite E.
move=> vin; move: (Hreq v vin); rewrite mem_padded !mem_non_mask vin andbT /=.
by case: (Py.endswith v "_mask").
Qed.

(** The common tail of the three pipelines: select the non-mask names,
    batch, pad, select [req_vars]. *)
Lemma pipeline_tail (inner : stream) (batch : stream -> stream)
    (req_vars : seq string) :
  (forall s, sources (batch s) = sources s) ->
  (let? s1 := Select inner (Spec.non_mask req_vars) in
   let? s := Select (Obj.Padding (batch s1) [:: "latitude"; "longitude"])
               req_vars in
   Some s)
  = if Spec.requestable (sources inner) req_vars
    then Some (Obj.Select
                 (Obj.Padding (batch (Obj.Select inner (Spec.non_mask req_vars)))
                    [:: "latitude"; "longitude"]) req_vars)
    else None.
Proof.
move=> Hb; rewrite -selections_requestable /Streams.Select.
case: ifP => //= _.
by rewrite Hb /= -/(Spec.padded _); case: ifP.
Qed.

(** [Stream.train], [Stream.valid] and [Stream.test] in closed form.
    [Stream.train] first reads the trip ids of the validation data set,
    which the validation file must hold. *)
Lemma train_spec (req_vars : seq string) :
  train req_vars
  = if ("trip_id" \in file_sources (Rnn.valid_set config) (Some "valid.hdf5"))
       && Spec.requestable
            (file_sources "train" None ++ Spec.datetime_fields
             ++ Spec.destination_fields) req_vars
    then Some
      (Obj.Select
         (Obj.Padding
            (Obj.balanced_batch
               (Obj.Select
                  (Obj.add_destination
                     (Obj.taxi_add_datetime
                        (Obj.TaxiExcludeEmptyTrips
                           (Obj.TaxiExcludeTrips
                              (Obj.DataStream
                                 (Obj.MkTaxiDataset "train" None None)
                                 (Obj.ShuffledExampleScheme
                                    (examples "train" None)))
                              (take (examples (Rnn.valid_set config)
                                       (Some "valid.hdf5"))
                                 (column (Rnn.valid_set config)
                                    (Some "valid.hdf5") "trip_id"))))))
                  (Spec.non_mask req_vars))
               "latitude" (Rnn.batch_size config) (Rnn.batch_sort_size config))
            [:: "latitude"; "longitude"])
         req_vars)
    else None.
Proof.
rewrite /Streams.train /Streams.TaxiDataset /= andbT.
case: ifP => //= _.
rewrite /Py.getitem /Streams.get_data /Streams.num_examples /=.
rewrite subn0 drop0 -/(Spec.non_mask req_vars).
rewrite (pipeline_tail _ (batch := fun s =>
           Obj.balanced_batch s "latitude" (Rnn.batch_size config)
             (Rnn.batch_sort_size config))) //=.
by rewrite -catA.
Qed.

Lemma valid_spec (req_vars : seq string) :
  valid req_vars
  = if Spec.requestable
         (file_sources (Rnn.valid_set config) (Some "valid.hdf5")
          ++ Spec.datetime_fields ++ Spec.destination_fields) req_vars
    then Some
      (Obj.Select
         (Obj.Padding
            (Obj.Batch
               (Obj.Select
                  (Obj.add_destination
                     (Obj.taxi_add_datetime
                        (Obj.TaxiStream (Rnn.valid_set config)
                           (Some "valid.hdf5"))))
                  (Spec.non_mask req_vars))
               (Obj.ConstantScheme 1000))
            [:: "latitude"; "longitude"])
         req_vars)
    else None.
Proof.
rewrite /Streams.valid -/(Spec.non_mask req_vars).
rewrite (pipeline_tail _ (batch := fun s =>
           Obj.Batch s (Obj.ConstantScheme 1000))) //=.
by rewrite -catA.
Qed.

Lemma test_spec (req_vars : seq string) :
  test req_vars
  = if Spec.requestable (file_sources "test" None ++ Spec.datetime_fields)
         req_vars
    then Some
      (Obj.Select
         (Obj.Padding
            (Obj.Batch
               (Obj.Select
                  (Obj.taxi_remove_test_only_clients
                     (Obj.taxi_add_datetime (Obj.TaxiStream "test" None)))
                  (Spec.non_mask req_vars))
               (Obj.ConstantScheme 1))
            [:: "latitude"; "longitude"])
         req_vars)
    else None.
Proof.
rewrite /Streams.test -/(Spec.non_mask req_vars).
by rewrite (pipeline_tail _ (batch := fun s =>
              Obj.Batch s (Obj.ConstantScheme 1))).
Qed.

(** When the validation set has as many examples as trip ids, all of
    its trip ids are excluded from the training stream. *)
Lemma valid_trips_ids_all :
  examples (Rnn.valid_set config) (Some "valid.hdf5")
  = size (column (Rnn.valid_set config) (Some "valid.hdf5") "trip_id") ->
  Py.getitem
    (Streams.get_data file_sources column
       (Obj.MkTaxiDataset (Rnn.valid_set config) (Some "valid.hdf5")
          (Some [:: "trip_id"]))
       0 (examples (Rnn.valid_set config) (Some "valid.hdf5"))) 0
  = Some (column (Rnn.valid_set config) (Some "valid.hdf5") "trip_id").
Proof.
by move=> ->; rewrite /Py.getitem /Streams.get_data /= subn0 drop0 take_size.
Qed.

(** C2: the stream that [Stream.train] builds is, innermost first: the
    'train' data set read in shuffled order, without the trips whose
    trip id is in the validation data set, without the empty trips, with
    the datetime fields, with the destination fields, the selection of
    the non-mask names of [req_vars], balanced batches keyed on 'latitude'
    of the configured batch size, padding, and the selection of
    [req_vars]. *)
Theorem train_composition (req_vars : seq string) (s : stream) :
  train req_vars = Some s ->
  let valid_trips_ids :=
    take (examples (Rnn.valid_set config) (Some "valid.hdf5"))
      (column (Rnn.valid_set config) (Some "valid.hdf5") "trip_id") in
  let shuffled :=
    Obj.DataStream (Obj.MkTaxiDataset "train" None None)
      (Obj.ShuffledExampleScheme (examples "train" None)) in
  s = Obj.Select
        (Obj.Padding
           (Obj.balanced_batch
              (Obj.Select
                 (Obj.add_destination
                    (Obj.taxi_add_datetime
                       (Obj.TaxiExcludeEmptyTrips
                          (Obj.TaxiExcludeTrips shuffled valid_trips_ids))))
                 [seq v <- req_vars | ~~ Py.endswith v "_mask"])
              "latitude" (Rnn.batch_size config) (Rnn.batch_sort_size config))
           [:: "latitude"; "longitude"])
        req_vars.
Proof. by rewrite train_spec; case: ifP => // _ [<-]. Qed.

(** C6: [Stream.valid] batches with the constant size 1000 and
    [Stream.test] with the constant size 1; in both the batching wraps
    the selection of the non-mask names and is wrapped by the padding. *)
Theorem valid_test_batching (req_vars : seq string) :
  (forall s, valid req_vars = Some s ->
     s = Obj.Select
           (Obj.Padding
              (Obj.Batch
                 (Obj.Select
                    (Obj.add_destination
                       (Obj.taxi_add_datetime
                          (Obj.TaxiStream (Rnn.valid_set config)
                             (Some "valid.hdf5"))))
                    [seq v <- req_vars | ~~ Py.endswith v "_mask"])
                 (Obj.ConstantScheme 1000))
              [:: "latitude"; "longitude"])
           req_vars)
  /\
  (forall s, test req_vars = Some s ->
     s = Obj.Select
           (Obj.Padding
              (Obj.Batch
                 (Obj.Select
                    (Obj.taxi_remove_test_only_clients
                       (Obj.taxi_add_datetime (Obj.TaxiStream "test" None)))
                    [seq v <- req_vars | ~~ Py.endswith v "_mask"])
                 (Obj.ConstantScheme 1))
              [:: "latitude"; "longitude"])
           req_vars).
Proof.
split=> s; first by rewrite valid_spec; case: ifP => // _ [<-].
by rewrite test_spec; case: ifP => // _ [<-].
Qed.

(** A stream is returned only for a requestable list, and then every
    mask name in it is [latitude_mask] or [longitude_mask], and the
    source it masks is in the list too. *)
Lemma requestable_masks_known (upstream req_vars : seq string) :
  Spec.requestable upstream req_vars -> Spec.masks_known req_vars.
Proof.
move=> /allP H; apply/allP => v /H.
case: (Py.endswith v "_mask") => //=; rewrite !inE.
by case/orP => /andP [-> _]; rewrite ?orbT.
Qed.

Lemma requestable_mask_sources (upstream req_vars : seq string) :
  Spec.requestable upstream req_vars ->
  (("latitude_mask" \in req_vars) ==> ("latitude" \in req_vars))
  && (("longitude_mask" \in req_vars) ==> ("longitude" \in req_vars)).
Proof.
move=> /allP H; apply/andP; split; apply/implyP => /H /=; last by [].
by rewrite orbF.
Qed.

Lemma returned_requestable (req_vars : seq string) (s : stream) :
  [\/ train req_vars = Some s, valid req_vars = Some s
    | test req_vars = Some s] ->
  Spec.masks_known req_vars.
Proof.
case; rewrite ?train_spec ?valid_spec ?test_spec; case: ifP => // H _.
- by case/andP: H => _; exact: requestable_masks_known.
- exact: requestable_masks_known H.
- exact: requestable_masks_known H.
Qed.



End Pipelines.

(** *** The streams over the example files *)

Notation ex_train :=
  (Streams.train Example.file_sources Example.examples Example.column
     Example.config).
Notation ex_valid := (Streams.valid nat Example.file_sources Example.config).
Notation ex_test := (Streams.test nat Example.file_sources).
Notation ex_sources := (Streams.sources Example.file_sources).

(** The training stream for latitude, its mask, longitude and the taxi. *)
Lemma train_composition_witness :
  exists2 s, ex_train Example.req_vars = Some s
  & s = Obj.Select
          (Obj.Padding
             (Obj.balanced_batch
                (Obj.Select
                   (Obj.add_destination
                      (Obj.taxi_add_datetime
                         (Obj.TaxiExcludeEmptyTrips
                            (Obj.TaxiExcludeTrips
                               (Obj.DataStream
                                  (Obj.MkTaxiDataset "train" None None)
                                  (Obj.ShuffledExampleScheme 2))
                               [:: 11; 12]))))
                   [:: "latitude"; "longitude"; "taxi_id"])
                "latitude" 200 10)
             [:: "latitude"; "longitude"])
          [:: "latitude"; "latitude_mask"; "longitude"; "taxi_id"].
Proof.
case E: (ex_train Example.req_vars) => [s|]; last by [].
by exists s; rewrite // (train_composition E).
Defined.

Lemma valid_test_batching_witness :
  (exists2 s, ex_valid Example.req_vars = Some s
   & s = Obj.Select
           (Obj.Padding
              (Obj.Batch
                 (Obj.Select
                    (Obj.add_destination
                       (Obj.taxi_add_datetime
                          (Obj.TaxiStream "cuts/test_times_0"
                             (Some "valid.hdf5"))))
                    [:: "latitude"; "longitude"; "taxi_id"])
                 (Obj.ConstantScheme 1000))
              [:: "latitude"; "longitude"])
           Example.req_vars)
  /\
  (exists2 s, ex_test Example.req_vars = Some s
   & s = Obj.Select
           (Obj.Padding
              (Obj.Batch
                 (Obj.Select
                    (Obj.taxi_remove_test_only_clients
                       (Obj.taxi_add_datetime (Obj.TaxiStream "test" None)))
                    [:: "latitude"; "longitude"; "taxi_id"])
                 (Obj.ConstantScheme 1))
              [:: "latitude"; "longitude"])
           Example.req_vars).
Proof.
have [Hv Ht] :=
  valid_test_batching nat Example.file_sources Example.config Example.req_vars.
split.
- case E: (ex_valid Example.req_vars) => [s|]; last by [].
  by exists s; rewrite // (Hv s E).
- case E: (ex_test Example.req_vars) => [s|]; last by [].
  by exists s; rewrite // (Ht s E).
Defined.



(** Padding puts each mask right after its source; the final selection
    brings the sources in the requested order. *)
Example padding_sources_example :
  ex_sources
    (Obj.Padding
       (Obj.Batch
          (Obj.Select (Obj.TaxiStream (value := nat) "test" None)
             [:: "taxi_id"; "longitude"; "latitude"])
          (Obj.ConstantScheme 1))
       [:: "latitude"; "longitude"])
  = [:: "taxi_id"; "longitude"; "longitude_mask"; "latitude"; "latitude_mask"].
Proof. by []. Qed.

(** A name no stream carries cannot be requested. *)
Example valid_unknown_name : ex_valid [:: "latitude"; "speed"] = None.
Proof. by []. Qed.


End StreamProps.

(** * Further properties of the configuration *)

Module ConfigMore.

Import Config.

Lemma append_next_increasing (l : seq nat) :
  2 <= size l -> all (fun x => 0 < x) l -> sorted ltn l ->
  let l' := rcons l (nth 0 l (size l).-1 + nth 0 l (size l).-2) in
  all (fun x => 0 < x) l' /\ sorted ltn l'.
Proof.
case: l => [//|a l] sl pos srt.
have second : 0 < nth 0 (a :: l) (size (a :: l)).-2.
  apply: (allP pos); apply: mem_nth.
  by apply: leq_ltn_trans (leq_pred _) _; rewrite /= ltnS.
have -> : nth 0 (a :: l) (size (a :: l)).-1 = last a l by rewrite nth_last.
split.
  by rewrite all_rcons pos andbT addn_gt0 second orbT.
by rewrite /= rcons_path [path _ _ _]srt /= -[X in X < _]addn0 ltn_add2l.
Qed.

(** X16: the loop that builds the time classes keeps a list of positive,
    strictly increasing numbers so, however often it runs; hence the 23
    classes of [time_tgtcls] are positive and strictly increasing. *)
Theorem time_tgtcls_increasing :
  (forall n l, 2 <= size l -> all (fun x => 0 < x) l -> sorted ltn l ->
     exists l', [/\ Py.for_range n append_next l = Some l',
                    all (fun x => 0 < x) l' & sorted ltn l'])
  /\ all (fun x => 0 < x) time_tgtcls /\ sorted ltn time_tgtcls.
Proof.
have loop n l : 2 <= size l -> all (fun x => 0 < x) l -> sorted ltn l ->
    exists l', [/\ Py.for_range n append_next l = Some l',
                   all (fun x => 0 < x) l' & sorted ltn l'].
  elim: n l => [|n IH] l sl pos srt; first by exists l.
  have [pos' srt'] := append_next_increasing sl pos srt.
  have [|l' [run pos'' srt'']] := IH _ _ pos' srt'.
    by rewrite size_rcons leqW.
  by exists l'; split=> //=; rewrite ConfigProps.append_nextE.
split; first exact: loop.
have [l' [run pos srt]] := loop 21 [:: 1; 2] isT isT isT.
by rewrite /time_tgtcls /time_tgtcls_run run.
Qed.

Lemma time_tgtcls_increasing_witness :
  exists l', [/\ Py.for_range 3 append_next [:: 1; 2] = Some l',
                 all (fun x => 0 < x) l' & sorted ltn l'].
Proof.
have [H _] := time_tgtcls_increasing.
exact: (H 3 [:: 1; 2] isT isT isT).
Defined.

End ConfigMore.

(** * Further properties of the recurrent model *)

Module RnnMore.

Import GRing.Theory.
Local Open Scope ring_scope.

Lemma zip_take (A A' : Type) (k : nat) (a : seq A) (b : seq A') :
  zip (take k a) (take k b) = take k (zip a b).
Proof. by elim: k a b => [|k IH] [|x a] [|y b] //=; rewrite IH. Qed.

Section Scan.

Variables (F : fieldType) (kwargs : Type).
Variable MLP_apply : Rnn.MLP -> Tensor.vector F -> Tensor.vector F.
Variable ContextEmbedder_apply :
  Rnn.ContextEmbedder -> kwargs -> seq (Tensor.matrix F).
Variable LSTM_apply :
  Rnn.LSTM -> Tensor.vector F -> Tensor.vector F -> Tensor.vector F -> F ->
  Tensor.vector F * Tensor.vector F.
Variable LSTM_initial_state : Rnn.LSTM -> string -> nat -> Tensor.matrix F.
Variables train_gps_mean train_gps_std : F * F.
Variable self : Rnn.Model.

Notation vector := (Tensor.vector F).
Notation matrix := (Tensor.matrix F).
Notation predict_all_step :=
  (Rnn.predict_all_step MLP_apply ContextEmbedder_apply LSTM_apply
     train_gps_mean train_gps_std self).
Notation recurrent :=
  (Rnn.recurrent MLP_apply ContextEmbedder_apply LSTM_apply
     train_gps_mean train_gps_std self).
Notation predict_all :=
  (Rnn.predict_all MLP_apply ContextEmbedder_apply LSTM_apply
     LSTM_initial_state train_gps_mean train_gps_std self).
Notation predict :=
  (Rnn.predict MLP_apply ContextEmbedder_apply LSTM_apply
     LSTM_initial_state train_gps_mean train_gps_std self).

Lemma recurrent_take (k : nat) (steps : seq (vector * vector * vector))
    (kw : kwargs) (st ce : matrix) :
  recurrent (take k steps) kw st ce = take k (recurrent steps kw st ce).
Proof.
by elim: k steps st ce => [|k IH] [|x steps] st ce //=; rewrite IH.
Qed.

Lemma size_recurrent (steps : seq (vector * vector * vector))
    (kw : kwargs) (st ce : matrix) :
  size (recurrent steps kw st ce) = size steps.
Proof. by elim: steps st ce => [|x steps IH] st ce //=; rewrite IH. Qed.

Lemma predict_all_take (latitude longitude latitude_mask : matrix)
    (kw : kwargs) (k : nat) :
  predict_all (take k latitude) (take k longitude) (take k latitude_mask) kw
  = (take k (predict_all latitude longitude latitude_mask kw).1.1,
     take k (predict_all latitude longitude latitude_mask kw).1.2,
     take k (predict_all latitude longitude latitude_mask kw).2).
Proof.
rewrite /Rnn.predict_all /= !zip_take -!map_take.
case: k => [|k]; first by rewrite !take0.
have -> : head [::] (take k.+1 latitude) = head [::] latitude by case: latitude.
by rewrite recurrent_take.
Qed.

(** The first row of a non-empty matrix of [B] rows of [T] entries. *)
Lemma size_head_shaped (B T : nat) (m : matrix) :
  Spec.shaped B T m -> (0 < B)%N -> size (head [::] m) = T.
Proof.
case: m => [|r m] /andP [/eqP sz]; first by rewrite -sz.
by case/andP => /eqP.
Qed.

(** The destinations of [predict_all] on time-major sequences of [T > 0]
    steps for [B] examples: one [B] x 2 matrix per step. *)
Lemma predict_all_shape (kw : kwargs) (B T : nat)
    (latitude longitude latitude_mask : matrix) :
  (forall r, size (MLP_apply (Rnn.rec_to_output self) r) = 2%N) ->
  (forall ce m, m \in ContextEmbedder_apply ce kw -> size m = B) ->
  (forall name, size (LSTM_initial_state (Rnn.rec self) name B) = B) ->
  Spec.shaped T B latitude -> Spec.shaped T B longitude ->
  Spec.shaped T B latitude_mask -> (0 < T)%N ->
  size (predict_all latitude longitude latitude_mask kw).1.1 = T
  /\ all (Spec.shaped B 2) (predict_all latitude longitude latitude_mask kw).1.1.
Proof.
move=> Hout Hemb Hinit Hlat /andP [/eqP s2 a2] /andP [/eqP s3 a3] T0.
have szB := size_head_shaped Hlat T0.
have /andP [/eqP s1 a1] := Hlat.
rewrite /Rnn.predict_all /= size_map szB.
have [] :=
  @RnnProps.recurrent_shape F kwargs MLP_apply ContextEmbedder_apply LSTM_apply
    train_gps_mean train_gps_std self kw B
    (zip (zip latitude longitude) latitude_mask)
    (Rnn.initial_state LSTM_initial_state self "states" B)
    (Rnn.initial_state LSTM_initial_state self "cells" B)
    Hout Hemb (RnnProps.all_zip3 a1 a2 a3) (Hinit _) (Hinit _).
rewrite !size_zip s1 s2 s3 !minnn => -> Hall; split=> //.
by rewrite all_map.
Qed.

Lemma transpose_take (k : nat) (m : matrix) :
  (k <= size (head [::] m))%N ->
  Tensor.transpose [seq take k r | r <- m] = take k (Tensor.transpose m).
Proof.
rewrite /Tensor.transpose; case: m => [|r m] /= kr.
  by case: (k).
rewrite size_takel // -map_take take_iota (minn_idPl kr).
apply/eq_in_map => j; rewrite mem_iota add0n => /andP [_ jk].
by rewrite nth_take // -map_comp; congr cons; apply: eq_map => r' /=; rewrite nth_take.
Qed.

Lemma getitem_neg_take (T : Type) (d : T) (k : nat) (l : seq T) :
  (0 < k)%N -> (k <= size l)%N ->
  Py.getitem_neg (take k l) 1 = Some (nth d l k.-1).
Proof.
move=> k0 kl; rewrite (RnnProps.getitem_neg_last d).
have st : size (take k l) = k by rewrite size_takel.
have : (0 < size (take k l))%N by rewrite st.
case E: (take k l) => [//|x s] _.
by rewrite -E -nth_last st nth_take // prednK.
Qed.

End Scan.

Section Predict.

Variables (F : fieldType) (kwargs : Type).
Variable MLP_apply : Rnn.MLP -> Tensor.vector F -> Tensor.vector F.
Variable ContextEmbedder_apply :
  Rnn.ContextEmbedder -> kwargs -> seq (Tensor.matrix F).
Variable LSTM_apply :
  Rnn.LSTM -> Tensor.vector F -> Tensor.vector F -> Tensor.vector F -> F ->
  Tensor.vector F * Tensor.vector F.
Variable LSTM_initial_state : Rnn.LSTM -> string -> nat -> Tensor.matrix F.
Variables train_gps_mean train_gps_std : F * F.

Notation matrix := (Tensor.matrix F).

(** X1: on sequences of [T] steps for a batch of [B > 0] examples, the
    outputs of [predict_all] for the first [k] steps, [0 < k <= T], do
    not depend on the later steps: on the sequences cut after [k] steps
    it gives the first [k] elements of each of its three outputs, [k]
    destinations of the batch. *)
Theorem predict_all_prefix (cfg : Rnn.config) (kw : kwargs) (B T k : nat)
    (latitude longitude latitude_mask : matrix) :
  let predict_all :=
    Rnn.predict_all MLP_apply ContextEmbedder_apply LSTM_apply
      LSTM_initial_state train_gps_mean train_gps_std (Rnn.Model_init cfg) in
  let full := predict_all latitude longitude latitude_mask kw in
  let cut :=
    predict_all (take k latitude) (take k longitude) (take k latitude_mask)
      kw in
  (forall mlp r, size (MLP_apply mlp r) = last 0%N (Rnn.MLP_dims mlp)) ->
  (forall ce m, m \in ContextEmbedder_apply ce kw -> size m = B) ->
  (forall lstm name, size (LSTM_initial_state lstm name B) = B) ->
  Spec.shaped T B latitude -> Spec.shaped T B longitude ->
  Spec.shaped T B latitude_mask ->
  (0 < B)%N -> (0 < k)%N -> (k <= T)%N ->
  [/\ cut = (take k full.1.1, take k full.1.2, take k full.2),
      size cut.1.1 = k
    & all (Spec.shaped B 2) cut.1.1].
Proof.
move=> predict_all full cut Hmlp Hemb Hinit Hlat Hlon Hmask B0 k0 kT.
have Ecut : cut = (take k full.1.1, take k full.1.2, take k full.2).
  exact: predict_all_take.
have Hout r :
    size (MLP_apply (Rnn.rec_to_output (Rnn.Model_init cfg)) r) = 2%N.
  by rewrite Hmlp.
have [sR aR] : size full.1.1 = T /\ all (Spec.shaped B 2) full.1.1.
  apply: predict_all_shape Hlat Hlon Hmask _ => //.
  exact: leq_trans k0 kT.
split=> //; rewrite Ecut /=; first by rewrite size_takel // sR.
by apply/allP => d /mem_take; exact: (allP aR).
Qed.

(** X3: on a batch of [B > 0] trajectories of [T] points each,
    predicting from the first [k] points of every trajectory,
    [0 < k <= T], gives the destination that [predict_all] puts out at
    step [k] on the whole trajectories, [B] rows of two coordinates:
    later points do not change an earlier prediction. *)
Theorem predict_truncated (cfg : Rnn.config) (kw : kwargs) (B T k : nat)
    (latitude longitude latitude_mask : matrix) :
  let self := Rnn.Model_init cfg in
  let res :=
    (Rnn.predict_all MLP_apply ContextEmbedder_apply LSTM_apply
       LSTM_initial_state train_gps_mean train_gps_std self
       (Tensor.transpose latitude) (Tensor.transpose longitude)
       (Tensor.transpose latitude_mask) kw).1.1 in
  (forall mlp r, size (MLP_apply mlp r) = last 0%N (Rnn.MLP_dims mlp)) ->
  (forall ce m, m \in ContextEmbedder_apply ce kw -> size m = B) ->
  (forall lstm name, size (LSTM_initial_state lstm name B) = B) ->
  Spec.shaped B T latitude -> Spec.shaped B T longitude ->
  Spec.shaped B T latitude_mask ->
  (0 < B)%N -> (0 < k)%N -> (k <= T)%N ->
  Rnn.predict MLP_apply ContextEmbedder_apply LSTM_apply LSTM_initial_state
    train_gps_mean train_gps_std self
    [seq take k r | r <- latitude] [seq take k r | r <- longitude]
    [seq take k r | r <- latitude_mask] kw
  = Some (nth [::] res k.-1)
  /\ Spec.shaped B 2 (nth [::] res k.-1).
Proof.
move=> self0 res Hmlp Hemb Hinit Hlat Hlon Hmask B0 k0 kT.
have Hout r : size (MLP_apply (Rnn.rec_to_output self0) r) = 2%N.
  by rewrite Hmlp.
have [sR aR] :=
  RnnProps.predict_all_destination_shape LSTM_apply train_gps_mean
    train_gps_std Hout Hemb (Hinit _) Hlat Hlon Hmask B0.
have kres : (k.-1 < size res)%N by rewrite sR prednK.
split; last by apply: (allP aR); rewrite mem_nth.
have hlat := size_head_shaped Hlat B0.
have hlon := size_head_shaped Hlon B0.
have hmask := size_head_shaped Hmask B0.
rewrite /Rnn.predict !transpose_take ?hlat ?hlon ?hmask //.
by rewrite predict_all_take /=; apply: getitem_neg_take => //; rewrite sR.
Qed.

(** X4: a prediction needs a point: on a batch of [B > 0] trajectories
    without a point, [predict] raises. *)
Theorem predict_no_step (self : Rnn.Model) (B : nat)
    (latitude longitude latitude_mask : matrix) (kw : kwargs) :
  Spec.shaped B 0 latitude -> Spec.shaped B 0 longitude ->
  Spec.shaped B 0 latitude_mask -> (0 < B)%N ->
  Rnn.predict MLP_apply ContextEmbedder_apply LSTM_apply LSTM_initial_state
    train_gps_mean train_gps_std self latitude longitude latitude_mask kw
  = None.
Proof.
move=> Hlat _ _ B0; rewrite /Rnn.predict /Rnn.predict_all /=.
have -> : Tensor.transpose latitude = [::].
  by apply: size0nil; rewrite RnnProps.size_transpose (size_head_shaped Hlat).
by rewrite !RnnProps.zip_nil_l.
Qed.

(** X5: on a batch of [B > 0] trajectories of [T > 0] points each,
    [predict] returns one destination of two coordinates per
    trajectory. *)
Theorem predict_shape (cfg : Rnn.config) (kw : kwargs) (B T : nat)
    (latitude longitude latitude_mask : matrix) :
  (forall mlp r, size (MLP_apply mlp r) = last 0%N (Rnn.MLP_dims mlp)) ->
  (forall ce m, m \in ContextEmbedder_apply ce kw -> size m = B) ->
  (forall lstm name, size (LSTM_initial_state lstm name B) = B) ->
  Spec.shaped B T latitude -> Spec.shaped B T longitude ->
  Spec.shaped B T latitude_mask ->
  (0 < B)%N -> (0 < T)%N ->
  exists2 d,
    Rnn.predict MLP_apply ContextEmbedder_apply LSTM_apply LSTM_initial_state
      train_gps_mean train_gps_std (Rnn.Model_init cfg)
      latitude longitude latitude_mask kw = Some d
    & Spec.shaped B 2 d.
Proof.
move=> Hmlp Hemb Hinit Hlat Hlon Hmask B0 T0.
have Hout r : size (MLP_apply (Rnn.rec_to_output (Rnn.Model_init cfg)) r) = 2%N.
  by rewrite Hmlp.
have [sR aR] :=
  RnnProps.predict_all_destination_shape LSTM_apply train_gps_mean
    train_gps_std Hout Hemb (Hinit _) Hlat Hlon Hmask B0.
rewrite /Rnn.predict (RnnProps.getitem_neg_last [::]).
move: sR aR; set res := (Rnn.predict_all _ _ _ _ _ _ _ _ _ _ _).1.1.
case: res => [|d res] sR aR; first by rewrite -sR in T0.
exists (last d res) => //.
by apply: (allP aR); rewrite mem_last.
Qed.

End Predict.

(** *** The cost over an ordered field *)

Section CostOrder.

Import Num.Theory.

Variables (F : numFieldType) (kwargs : Type).
Variable kwargs_get : kwargs -> string -> Tensor.vector F.
Variable MLP_apply : Rnn.MLP -> Tensor.vector F -> Tensor.vector F.
Variable ContextEmbedder_apply :
  Rnn.ContextEmbedder -> kwargs -> seq (Tensor.matrix F).
Variable LSTM_apply :
  Rnn.LSTM -> Tensor.vector F -> Tensor.vector F -> Tensor.vector F -> F ->
  Tensor.vector F * Tensor.vector F.
Variable LSTM_initial_state : Rnn.LSTM -> string -> nat -> Tensor.matrix F.
Variable erdist_point : Tensor.vector F -> Tensor.vector F -> F.
Variables train_gps_mean train_gps_std : F * F.
Variable self : Rnn.Model.

Notation vector := (Tensor.vector F).
Notation matrix := (Tensor.matrix F).
Notation cost :=
  (Rnn.cost kwargs_get MLP_apply ContextEmbedder_apply LSTM_apply
     LSTM_initial_state erdist_point train_gps_mean train_gps_std self).

Lemma sum_ge0 (s : vector) :
  all (fun x => 0 <= x) s -> 0 <= Tensor.sum s.
Proof.
by elim: s => [|x s IH] //= /andP [x0 /IH s0]; rewrite addr_ge0.
Qed.

Lemma mul_ge0 (a b : vector) :
  all (fun x => 0 <= x) a -> all (fun x => 0 <= x) b ->
  all (fun x => 0 <= x) (Tensor.mul a b).
Proof.
elim: a b => [|x a IH] [|y b] //= /andP [x0 a0] /andP [y0 b0].
by rewrite mulr_ge0 // IH.
Qed.

Lemma transpose_ge0 (m : matrix) :
  all (all (fun x => 0 <= x)) m ->
  all (fun x => 0 <= x) (flatten (Tensor.transpose m)).
Proof.
move=> /allP Hm; apply/allP => x /flattenP [row /mapP [j _ ->]].
case/mapP => r rm ->; case: (ltnP j (size r)) => jr.
  by apply: (allP (Hm r rm)); rewrite mem_nth.
by rewrite nth_default.
Qed.

(** X6: a mask-weighted mean of distances is not negative: when the
    distance of two points is never negative and no mask entry is
    negative, a cost that is a number is at least 0. *)
Theorem cost_ge0 (latitude longitude latitude_mask : matrix) (kw : kwargs)
    (c : F) :
  (forall a b, 0 <= erdist_point a b) ->
  all (all (fun x => 0 <= x)) latitude_mask ->
  cost latitude longitude latitude_mask kw = Some c ->
  0 <= c.
Proof.
move=> Hd Hm; rewrite /Rnn.cost /Tensor.div; case: ifP => // _ [<-].
have m0 := transpose_ge0 Hm.
apply: divr_ge0; apply: sum_ge0 => //; apply: mul_ge0 => //.
by apply/allP => x /mapP [p _ ->].
Qed.

(** X7: on a batch of [B > 0] trajectories of [T > 0] points each, with
    a mask without negative entries, as padding makes it, the cost is
    not a number exactly when every mask entry is zero. *)
Theorem cost_none_iff (cfg : Rnn.config) (kw : kwargs) (B T : nat)
    (latitude longitude latitude_mask : matrix) :
  (forall mlp r, size (MLP_apply mlp r) = last 0%N (Rnn.MLP_dims mlp)) ->
  (forall ce m, m \in ContextEmbedder_apply ce kw -> size m = B) ->
  (forall lstm name, size (LSTM_initial_state lstm name B) = B) ->
  Spec.shaped B T latitude -> Spec.shaped B T longitude ->
  Spec.shaped B T latitude_mask ->
  size (kwargs_get kw "destination_latitude") = B ->
  size (kwargs_get kw "destination_longitude") = B ->
  (0 < B)%N -> (0 < T)%N ->
  all (all (fun x => 0 <= x)) latitude_mask ->
  (Rnn.cost kwargs_get MLP_apply ContextEmbedder_apply LSTM_apply
     LSTM_initial_state erdist_point train_gps_mean train_gps_std
     (Rnn.Model_init cfg) latitude longitude latitude_mask kw == None)
  = all (all (fun x => x == 0)) latitude_mask.
Proof.
move=> _ _ _ _ _ Hshape _ _ Bpos _ Hm.
set c := Rnn.cost _ _ _ _ _ _ _ _ _ _ _ _ _.
have -> : (c == None)
          = (Tensor.sum (flatten (Tensor.transpose latitude_mask)) == 0).
  by rewrite /c /Rnn.cost /Tensor.div; case: ifP.
rewrite (RnnProps.sum_transpose_mask Hshape Bpos) -big_flatten /= big_seq.
have nn (x : F) : x \in flatten latitude_mask -> 0 <= x.
  by move=> /flattenP [r rm xr]; exact: (allP (allP Hm r rm)).
rewrite (psumr_eq0 _ nn).
apply/allP/allP => [H r rm|H x xin].
  apply/allP => x xr.
  have xin : x \in flatten latitude_mask by apply/flattenP; exists r.
  by move: (H x xin); rewrite xin.
apply/implyP => _; case/flattenP: xin => r rm xr.
exact: (allP (H r rm)).
Qed.

End CostOrder.

Section CostMean.

Variables (F : fieldType) (kwargs : Type).
Variable kwargs_get : kwargs -> string -> Tensor.vector F.
Variable MLP_apply : Rnn.MLP -> Tensor.vector F -> Tensor.vector F.
Variable ContextEmbedder_apply :
  Rnn.ContextEmbedder -> kwargs -> seq (Tensor.matrix F).
Variable LSTM_apply :
  Rnn.LSTM -> Tensor.vector F -> Tensor.vector F -> Tensor.vector F -> F ->
  Tensor.vector F * Tensor.vector F.
Variable LSTM_initial_state : Rnn.LSTM -> string -> nat -> Tensor.matrix F.
Variable erdist_point : Tensor.vector F -> Tensor.vector F -> F.
Variables train_gps_mean train_gps_std : F * F.

Notation matrix := (Tensor.matrix F).

(** The sum of a [B] x [T] mask, entry by entry. *)
Lemma sum_mask_entries (B T : nat) (latitude_mask : matrix) :
  Spec.shaped B T latitude_mask -> (0 < B)%N ->
  \sum_(0 <= t < T) \sum_(0 <= b < B) nth 0 (nth [::] latitude_mask b) t
  = \sum_(r <- latitude_mask) \sum_(x <- r) x.
Proof.
move=> Hshape B0; rewrite -(RnnProps.sum_transpose_mask Hshape B0).
have /andP [/eqP sT aT] := RnnProps.shaped_transpose B0 Hshape.
rewrite RnnProps.sumE (RnnProps.sum_flatten_nth 0 id sT aT).
apply: eq_big_nat => t /andP [_ tT]; apply: eq_big_nat => b /andP [_ bB].
by rewrite (RnnProps.nth_transpose_mask Hshape).
Qed.

(** X8: the cost is a weighted mean: when, wherever the mask is not
    zero, the predicted destination is at the distance [d] from the true
    one, the cost is [d]; perfect predictions cost 0. *)
Theorem cost_constant_distance (cfg : Rnn.config) (kw : kwargs) (B T : nat)
    (latitude longitude latitude_mask : matrix) (d : F) :
  let self := Rnn.Model_init cfg in
  let res :=
    (Rnn.predict_all MLP_apply ContextEmbedder_apply LSTM_apply
       LSTM_initial_state train_gps_mean train_gps_std self
       (Tensor.transpose latitude) (Tensor.transpose longitude)
       (Tensor.transpose latitude_mask) kw).1.1 in
  (forall mlp r, size (MLP_apply mlp r) = last 0%N (Rnn.MLP_dims mlp)) ->
  (forall ce m, m \in ContextEmbedder_apply ce kw -> size m = B) ->
  (forall lstm name, size (LSTM_initial_state lstm name B) = B) ->
  Spec.shaped B T latitude -> Spec.shaped B T longitude ->
  Spec.shaped B T latitude_mask ->
  size (kwargs_get kw "destination_latitude") = B ->
  size (kwargs_get kw "destination_longitude") = B ->
  (forall t b, (t < T)%N -> (b < B)%N ->
     nth 0 (nth [::] latitude_mask b) t != 0 ->
     erdist_point
       [:: nth 0 (kwargs_get kw "destination_latitude") b;
           nth 0 (kwargs_get kw "destination_longitude") b]
       (nth [::] (nth [::] res t) b) = d) ->
  \sum_(r <- latitude_mask) \sum_(x <- r) x != 0 ->
  Rnn.cost kwargs_get MLP_apply ContextEmbedder_apply LSTM_apply
    LSTM_initial_state erdist_point train_gps_mean train_gps_std self
    latitude longitude latitude_mask kw = Some d.
Proof.
move=> self res Hmlp Hemb Hinit Hlat Hlon Hmask Hdlat Hdlon Hd Hsum.
have Bpos : (0 < B)%N.
  case: (posnP B) Hmask Hsum => // -> /andP [/eqP /size0nil -> _].
  by rewrite big_nil eqxx.
have Hout r : size (MLP_apply (Rnn.rec_to_output self) r) = 2%N.
  by rewrite Hmlp.
rewrite /Rnn.cost.
rewrite (RnnProps.cost_numerator LSTM_apply erdist_point train_gps_mean
           train_gps_std Hout Hemb (Hinit _) Hlat Hlon Hmask Hdlat Hdlon Bpos).
rewrite (RnnProps.sum_transpose_mask Hmask Bpos) /Tensor.div (negbTE Hsum).
congr Some.
transitivity (d * (\sum_(r <- latitude_mask) \sum_(x <- r) x)
              / (\sum_(r <- latitude_mask) \sum_(x <- r) x));
  last by rewrite mulfK.
congr (_ / _); rewrite -(sum_mask_entries Hmask Bpos) mulr_sumr.
apply: eq_big_nat => t /andP [_ tT]; rewrite mulr_sumr.
apply: eq_big_nat => b /andP [_ bB].
case: (nth 0 (nth [::] latitude_mask b) t =P 0) => [->|/eqP nz].
  by rewrite !mulr0.
by rewrite -/res (Hd t b tT bB nz).
Qed.

End CostMean.

(** *** On the example batch *)

Notation ex_predict_all :=
  (Rnn.predict_all Example.MLP_apply Example.ContextEmbedder_apply
     Example.LSTM_apply Example.LSTM_initial_state
     Example.train_gps_mean Example.train_gps_std
     (Rnn.Model_init Example.config)).
Notation ex_step :=
  (Rnn.predict_all_step Example.MLP_apply Example.ContextEmbedder_apply
     Example.LSTM_apply Example.train_gps_mean Example.train_gps_std
     (Rnn.Model_init Example.config)).
Notation ex_predict :=
  (Rnn.predict Example.MLP_apply Example.ContextEmbedder_apply
     Example.LSTM_apply Example.LSTM_initial_state
     Example.train_gps_mean Example.train_gps_std
     (Rnn.Model_init Example.config)).
Notation ex_cost :=
  (Rnn.cost Example.kwargs_get Example.MLP_apply Example.ContextEmbedder_apply
     Example.LSTM_apply Example.LSTM_initial_state Example.erdist_point
     Example.train_gps_mean Example.train_gps_std
     (Rnn.Model_init Example.config)).
Notation ex_latT := (Tensor.transpose Example.latitude).
Notation ex_lonT := (Tensor.transpose Example.longitude).
Notation ex_maskT := (Tensor.transpose Example.latitude_mask).

Lemma predict_all_prefix_witness :
  let full := ex_predict_all ex_latT ex_lonT ex_maskT tt in
  let cut :=
    ex_predict_all (take 1 ex_latT) (take 1 ex_lonT) (take 1 ex_maskT) tt in
  [/\ cut = (take 1 full.1.1, take 1 full.1.2, take 1 full.2),
      size cut.1.1 = 1%N
    & all (Spec.shaped 1 2) cut.1.1].
Proof.
exact: (@predict_all_prefix rat unit Example.MLP_apply
          Example.ContextEmbedder_apply Example.LSTM_apply
          Example.LSTM_initial_state Example.train_gps_mean
          Example.train_gps_std Example.config tt 1 2 1
          ex_latT ex_lonT ex_maskT
          (fun mlp r => size_nseq _ _)
          (fun ce m (H : m \in [::]) => False_ind _ (notF H))
          (fun lstm name => size_nseq _ _) isT isT isT isT isT isT).
Defined.

Lemma predict_truncated_witness :
  let res := (ex_predict_all ex_latT ex_lonT ex_maskT tt).1.1 in
  ex_predict [seq take 1 r | r <- Example.latitude]
    [seq take 1 r | r <- Example.longitude]
    [seq take 1 r | r <- Example.latitude_mask] tt
  = Some (nth [::] res 0)
  /\ Spec.shaped 1 2 (nth [::] res 0).
Proof.
exact: (@predict_truncated rat unit Example.MLP_apply
          Example.ContextEmbedder_apply Example.LSTM_apply
          Example.LSTM_initial_state Example.train_gps_mean
          Example.train_gps_std Example.config tt 1 2 1
          Example.latitude Example.longitude Example.latitude_mask
          (fun mlp r => size_nseq _ _)
          (fun ce m (H : m \in [::]) => False_ind _ (notF H))
          (fun lstm name => size_nseq _ _) isT isT isT isT isT isT).
Defined.

(** One trajectory without a point. *)
Lemma predict_no_step_witness :
  ex_predict [:: [::]] [:: [::]] [:: [::]] tt = None.
Proof.
exact: (@predict_no_step rat unit Example.MLP_apply
          Example.ContextEmbedder_apply Example.LSTM_apply
          Example.LSTM_initial_state Example.train_gps_mean
          Example.train_gps_std (Rnn.Model_init Example.config)
          1 [:: [::]] [:: [::]] [:: [::]] tt isT isT isT isT).
Defined.

Lemma predict_shape_witness :
  exists2 d,
    ex_predict Example.latitude Example.longitude Example.latitude_mask tt
    = Some d
    & Spec.shaped 1 2 d.
Proof.
exact: (@predict_shape rat unit Example.MLP_apply
          Example.ContextEmbedder_apply Example.LSTM_apply
          Example.LSTM_initial_state Example.train_gps_mean
          Example.train_gps_std Example.config tt 1 2
          Example.latitude Example.longitude Example.latitude_mask
          (fun mlp r => size_nseq _ _)
          (fun ce m (H : m \in [::]) => False_ind _ (notF H))
          (fun lstm name => size_nseq _ _) isT isT isT isT isT).
Defined.

Lemma example_erdist_ge0 (a b : Tensor.vector rat) :
  0 <= Example.erdist_point a b.
Proof.
by rewrite /Example.erdist_point -!expr2 Num.Theory.addr_ge0 //
           Num.Theory.sqr_ge0.
Qed.

Lemma cost_ge0_witness : (0 : rat) <= 468%:Q.
Proof.
exact: (@cost_ge0 rat unit Example.kwargs_get Example.MLP_apply
          Example.ContextEmbedder_apply Example.LSTM_apply
          Example.LSTM_initial_state Example.erdist_point
          Example.train_gps_mean Example.train_gps_std
          (Rnn.Model_init Example.config)
          Example.latitude Example.longitude Example.latitude_mask tt
          468%:Q example_erdist_ge0 isT RnnProps.cost_example).
Defined.

Lemma cost_none_iff_witness :
  (ex_cost Example.latitude Example.longitude Example.latitude_mask tt == None)
  = all (all (fun x => x == 0)) Example.latitude_mask.
Proof.
exact: (@cost_none_iff rat unit Example.kwargs_get Example.MLP_apply
          Example.ContextEmbedder_apply Example.LSTM_apply
          Example.LSTM_initial_state Example.erdist_point
          Example.train_gps_mean Example.train_gps_std
          Example.config tt 1 2
          Example.latitude Example.longitude Example.latitude_mask
          (fun mlp r => size_nseq _ _)
          (fun ce m (H : m \in [::]) => False_ind _ (notF H))
          (fun lstm name => size_nseq _ _) isT isT isT erefl erefl
          isT isT isT).
Defined.

Lemma example_mask_sum :
  \sum_(r <- Example.latitude_mask) \sum_(x <- r) x != 0 :> rat.
Proof. by rewrite /Example.latitude_mask !big_cons !big_nil. Qed.

Lemma example_distance (t b : nat) :
  (t < 2)%N -> (b < 1)%N ->
  nth 0 (nth [::] Example.latitude_mask b) t != 0 ->
  Example.erdist_point
    [:: nth 0 (Example.kwargs_get tt "destination_latitude") b;
        nth 0 (Example.kwargs_get tt "destination_longitude") b]
    (nth [::] (nth [::] (ex_predict_all ex_latT ex_lonT ex_maskT tt).1.1 t) b)
  = 468%:Q.
Proof.
rewrite RnnProps.predict_all_example.
by case: t => [|[|t]] // _; case: b => [|b].
Qed.

Lemma cost_constant_distance_witness :
  ex_cost Example.latitude Example.longitude Example.latitude_mask tt
  = Some 468%:Q.
Proof.
exact: (@cost_constant_distance rat unit Example.kwargs_get Example.MLP_apply
          Example.ContextEmbedder_apply Example.LSTM_apply
          Example.LSTM_initial_state Example.erdist_point
          Example.train_gps_mean Example.train_gps_std
          Example.config tt 1 2
          Example.latitude Example.longitude Example.latitude_mask 468%:Q
          (fun mlp r => size_nseq _ _)
          (fun ce m (H : m \in [::]) => False_ind _ (notF H))
          (fun lstm name => size_nseq _ _) isT isT isT erefl erefl
          example_distance example_mask_sum).
Defined.

End RnnMore.

(** * Further properties of the streams *)

Module StreamMore.

Local Open Scope string_scope.

(** Whether a list can be served depends on its names, not on their
    order. *)
Lemma requestable_perm (upstream rv rv' : seq string) :
  perm_eq rv rv' ->
  Spec.requestable upstream rv = Spec.requestable upstream rv'.
Proof.
move=> Hperm; rewrite /Spec.requestable (perm_all _ Hperm).
by apply: eq_all => v; rewrite !(perm_mem Hperm).
Qed.

(** A list that can be served stays so when the stream before the
    selection carries more sources. *)
Lemma requestable_sub (up up' rv : seq string) :
  {subset up <= up'} -> Spec.requestable up rv -> Spec.requestable up' rv.
Proof.
move=> Hsub /allP H; apply/allP => v /H.
by case: (Py.endswith v "_mask") => //; exact: Hsub.
Qed.

Section Pipelines.

Variable value : Type.
Variable file_sources : string -> option string -> seq string.
Variable examples : string -> option string -> nat.
Variable column : string -> option string -> string -> seq value.
Variable config : Rnn.config.

Notation sources := (Streams.sources file_sources).
Notation train := (Streams.train file_sources examples column config).
Notation valid := (Streams.valid value file_sources config).
Notation test := (Streams.test value file_sources).
Notation upstream_train :=
  (file_sources "train" None ++ Spec.datetime_fields
   ++ Spec.destination_fields)%SEQ.
Notation upstream_valid :=
  (file_sources (Rnn.valid_set config) (Some "valid.hdf5")
   ++ Spec.datetime_fields ++ Spec.destination_fields)%SEQ.
Notation upstream_test := (file_sources "test" None ++ Spec.datetime_fields)%SEQ.

(** X9: each of the three streams raises for a list it cannot serve: a
    name the stream before the selection does not carry, a mask other
    than those of latitude and longitude, or a mask requested without
    its source makes a selection raise.  [Stream.train] also raises,
    whatever is requested, when the validation file does not hold the
    trip ids. *)
Theorem stream_raises_unless_served (req_vars : seq string) :
  [/\ ~~ Spec.requestable upstream_train req_vars -> train req_vars = None,
      "trip_id" \notin file_sources (Rnn.valid_set config) (Some "valid.hdf5") ->
        train req_vars = None,
      ~~ Spec.requestable upstream_valid req_vars -> valid req_vars = None
    & ~~ Spec.requestable upstream_test req_vars -> test req_vars = None].
Proof.
rewrite (StreamProps.train_spec file_sources examples column config)
        (StreamProps.valid_spec value file_sources config)
        (StreamProps.test_spec value file_sources).
by split=> /negbTE ->; rewrite ?andbF.
Qed.

(** X10: the order of [req_vars] only fixes the order of the sources:
    a stream is returned for a list exactly when it is returned for any
    permutation of it. *)
Theorem stream_returned_perm (req_vars req_vars' : seq string) :
  perm_eq req_vars req_vars' ->
  [/\ isSome (train req_vars) = isSome (train req_vars'),
      isSome (valid req_vars) = isSome (valid req_vars')
    & isSome (test req_vars) = isSome (test req_vars')].
Proof.
move=> Hperm.
rewrite !(StreamProps.train_spec file_sources examples column config)
        !(StreamProps.valid_spec value file_sources config)
        !(StreamProps.test_spec value file_sources).
by rewrite !(requestable_perm _ Hperm); split; do 2!case: ifP => //.
Qed.

Lemma subset_upstream (up up' extra : seq string) :
  {subset up <= up'} -> {subset (up ++ extra)%SEQ <= (up' ++ extra)%SEQ}.
Proof.
by move=> H v; rewrite !mem_cat => /orP [/H ->|->] //; rewrite orbT.
Qed.

(** X11: every variable that [Stream.inputs] declares can be requested,
    all together and in any order, from the training and the validation
    stream, as soon as the stored files hold the nine trip columns among
    them, and the trip ids by which the validation trips are excluded
    from the training stream. *)
Theorem stream_inputs_served (req_vars : seq string) :
  perm_eq req_vars Inputs.Stream_inputs_keys ->
  {subset SpecInputs.trip_inputs <= file_sources "train" None} ->
  {subset SpecInputs.trip_inputs
   <= file_sources (Rnn.valid_set config) (Some "valid.hdf5")} ->
  "trip_id" \in file_sources "train" None ->
  "trip_id" \in file_sources (Rnn.valid_set config) (Some "valid.hdf5") ->
  (exists2 s, train req_vars = Some s & sources s = req_vars)
  /\ (exists2 s, valid req_vars = Some s & sources s = req_vars).
Proof.
move=> Hperm Htrain Hvalid _ Hid.
have base : Spec.requestable
              (SpecInputs.trip_inputs ++ Spec.datetime_fields
               ++ Spec.destination_fields) Inputs.Stream_inputs_keys by [].
split.
- rewrite (StreamProps.train_spec file_sources examples column config) Hid.
  rewrite (requestable_perm _ Hperm).
  rewrite (requestable_sub (subset_upstream Htrain) base).
  by eexists.
- rewrite (StreamProps.valid_spec value file_sources config).
  rewrite (requestable_perm _ Hperm).
  rewrite (requestable_sub (subset_upstream Hvalid) base).
  by eexists.
Qed.

(** X12: the test stream adds no destination: asked for all the
    variables of [Stream.inputs], it raises when the stored test set
    has no destination latitude. *)
Theorem stream_inputs_not_from_test (req_vars : seq string) :
  perm_eq req_vars Inputs.Stream_inputs_keys ->
  "destination_latitude" \notin file_sources "test" None ->
  test req_vars = None.
Proof.
move=> Hperm Hno; rewrite (StreamProps.test_spec value file_sources).
rewrite (requestable_perm _ Hperm).
suff /negbTE -> : ~~ Spec.requestable upstream_test Inputs.Stream_inputs_keys.
  by [].
apply/allPn; exists "destination_latitude" => //=.
by rewrite mem_cat (negbTE Hno).
Qed.

Section ModelInputs.

Variable ContextEmbedder_inputs : Rnn.ContextEmbedder -> seq string.
Variable cfg : Rnn.config.

Notation context :=
  (Inputs.context ContextEmbedder_inputs (Rnn.Model_init cfg)).
Notation predict_inputs :=
  (Inputs.predict_inputs ContextEmbedder_inputs (Rnn.Model_init cfg)).
Notation cost_inputs :=
  (Inputs.cost_inputs ContextEmbedder_inputs (Rnn.Model_init cfg)).

Lemma predict_inputs_requestable (file : seq string) (extra : seq string) :
  all (fun v => ~~ Py.endswith v "_mask") context ->
  {subset context <= (file ++ extra)%SEQ} ->
  "latitude" \in file -> "longitude" \in file ->
  forall tl,
    all (fun v => ~~ Py.endswith v "_mask" && (v \in (file ++ extra)%SEQ)) tl ->
    Spec.requestable (file ++ extra) (predict_inputs ++ tl).
Proof.
move=> /allP Hnm Hsub Hlat Hlon tl /allP Htl.
have lat_in : "latitude" \in (predict_inputs ++ tl)%SEQ.
  by rewrite /Inputs.predict_inputs /Inputs.inputs /= mem_head.
have lon_in : "longitude" \in (predict_inputs ++ tl)%SEQ.
  by rewrite /Inputs.predict_inputs /Inputs.inputs /= !inE eqxx !orbT.
apply/allP => v; rewrite lat_in lon_in !andbT.
rewrite mem_cat => /orP [|vtl]; last by case/andP: (Htl v vtl) => /negbTE ->.
rewrite /Inputs.predict_inputs /Inputs.inputs mem_cat => /orP [|vctx].
  rewrite /= !inE => /or3P [] /eqP -> //=.
  - by rewrite mem_cat Hlat.
  - by rewrite mem_cat Hlon.
by rewrite (negbTE (Hnm v vctx)) Hsub.
Qed.



(** X15: the cost cannot be computed on the test stream: asked for the
    inputs of [Model.cost], the test stream raises when the stored test
    set has no destination latitude. *)
Theorem cost_inputs_not_from_test :
  "destination_latitude" \notin file_sources "test" None ->
  test cost_inputs = None.
Proof.
move=> Hno; rewrite (StreamProps.test_spec value file_sources).
suff /negbTE -> : ~~ Spec.requestable upstream_test cost_inputs by [].
apply/allPn; exists "destination_latitude".
  by rewrite /Inputs.cost_inputs mem_cat mem_head orbT.
by rewrite /= mem_cat (negbTE Hno).
Qed.

End ModelInputs.

End Pipelines.

(** *** Over the example files *)

Lemma sub_all (A B : seq string) : all (fun v => v \in B) A -> {subset A <= B}.
Proof. by move=> /allP. Qed.

(** A name no stream carries, asked of the validation stream. *)
Lemma stream_raises_unless_served_witness :
  Streams.valid nat Example.file_sources Example.config
    [:: "latitude"; "speed"] = None.
Proof.
have [_ _ H _] :=
  @stream_raises_unless_served nat Example.file_sources Example.examples
    Example.column Example.config [:: "latitude"; "speed"].
exact: H.
Defined.

Lemma stream_returned_perm_witness :
  isSome (Streams.valid nat Example.file_sources Example.config
            Example.req_vars)
  = isSome (Streams.valid nat Example.file_sources Example.config
              (rev Example.req_vars)).
Proof.
have [_ H _] :=
  @stream_returned_perm nat Example.file_sources Example.examples
    Example.column Example.config Example.req_vars (rev Example.req_vars) isT.
exact: H.
Defined.

Lemma stream_inputs_served_witness :
  exists2 s,
    Streams.train Example.file_sources Example.examples Example.column
      Example.config Inputs.Stream_inputs_keys = Some s
    & Streams.sources Example.file_sources s = Inputs.Stream_inputs_keys.
Proof.
have [H _] :=
  @stream_inputs_served nat Example.file_sources Example.examples
    Example.column Example.config Inputs.Stream_inputs_keys
    (perm_refl _)
    (@sub_all SpecInputs.trip_inputs (Example.file_sources "train" None) isT)
    (@sub_all SpecInputs.trip_inputs
       (Example.file_sources "cuts/test_times_0" (Some "valid.hdf5")) isT)
    isT isT.
exact: H.
Defined.

Lemma stream_inputs_not_from_test_witness :
  Streams.test nat SpecInputs.plain_file_sources Inputs.Stream_inputs_keys
  = None.
Proof.
exact: (@stream_inputs_not_from_test nat SpecInputs.plain_file_sources
          Inputs.Stream_inputs_keys (perm_refl _) isT).
Defined.



Lemma cost_inputs_not_from_test_witness :
  Streams.test nat SpecInputs.plain_file_sources
    (Inputs.cost_inputs SpecInputs.ContextEmbedder_inputs
       (Rnn.Model_init SpecInputs.config))
  = None.
Proof.
exact: (@cost_inputs_not_from_test nat SpecInputs.plain_file_sources
          SpecInputs.ContextEmbedder_inputs SpecInputs.config isT).
Defined.

(** The inputs of the cost for that configuration. *)
Example cost_inputs_example :
  Inputs.cost_inputs SpecInputs.ContextEmbedder_inputs
    (Rnn.Model_init SpecInputs.config)
  = [:: "latitude"; "latitude_mask"; "longitude"; "origin_call";
        "week_of_year"; "taxi_id"; "destination_latitude";
        "destination_longitude"].
Proof. by []. Qed.

End StreamMore.
